(** * UI component gallery: feed assembly, like/save toggles, publish form

    A shallow embedding of the three view components of the gallery
    (the feed page [Home], the [ComponentCard] and the [Publish] form)
    and the properties of their event handlers.

    The handlers are asynchronous functions that call a hosted data
    service, update React state through setters and report to the user
    through toasts.  They are embedded as computations in a small monad
    that threads the component state, records the observable effects
    (requests issued, toasts, console output, navigation, callbacks) in
    order, and completes either normally or by throwing. *)

From stdpp Require Import base strings list gmap sets sorting.
From Stdlib Require Import Ascii String ZArith Lia.

Local Open Scope Z_scope.
Local Open Scope string_scope.

(** ** JavaScript values used by the handlers *)

Module Js.

(** What a [catch] clause receives: the rejection reason of an awaited
    promise or an error object thrown by the handler itself.  Only its
    message is kept. *)
Definition Error := string.

(** Strings are sequences of code units; the one-byte range is
    modelled.  On that range [String.prototype.trim] strips TAB, LF,
    VT, FF, CR, SPACE and NO-BREAK SPACE (U+00A0). *)
Definition is_white_space (c : ascii) : bool :=
  let n := nat_of_ascii c in
  ((9 <=? n)%nat && (n <=? 13)%nat) || (n =? 32)%nat || (n =? 160)%nat.

Fixpoint trimStart (s : string) : string :=
  match s with
  | EmptyString => EmptyString
  | String c s' => if is_white_space c then trimStart s' else s
  end.

Fixpoint trimEnd (s : string) : string :=
  match s with
  | EmptyString => EmptyString
  | String c s' =>
      match trimEnd s' with
      | EmptyString => if is_white_space c then EmptyString else String c EmptyString
      | t => String c t
      end
  end.

Definition trim (s : string) : string := trimEnd (trimStart s).

(** Truthiness of a string: only the empty string is falsy. *)
Definition truthy (s : string) : bool :=
  match s with EmptyString => false | String _ _ => true end.

(** [s.split(sep)] for a one-character separator: the pieces between
    the separators, at least one piece. *)
Fixpoint split (sep : ascii) (s : string) : list string :=
  match s with
  | EmptyString => [EmptyString]
  | String c s' =>
      if Ascii.eqb c sep then EmptyString :: split sep s'
      else match split sep s' with
           | [] => [String c EmptyString]
           | piece :: rest => String c piece :: rest
           end
  end.

(** [arr.pop()]: the last element, [undefined] on an empty array. *)
Definition pop (l : list string) : option string := last l.

(** Interpolation of a possibly undefined string in a template. *)
Definition interpolate (o : option string) : string :=
  match o with Some s => s | None => "undefined" end.

(** [String.prototype.toLowerCase] on the one-byte range: A-Z and the
    Latin-1 capitals U+00C0-U+00DE other than the multiplication sign
    U+00D7 move up by 32; every other code unit is kept.  Beyond that
    range the JavaScript function looks at the neighbours of a letter
    (a capital sigma lower-cases differently at the end of a word), so
    nothing below relies on lower-casing a string piece by piece: the
    properties of the search use only that lower-casing a lower-cased
    string changes nothing. *)
Definition toLowerCaseChar (c : ascii) : ascii :=
  let n := nat_of_ascii c in
  if ((65 <=? n)%nat && (n <=? 90)%nat)
     || ((192 <=? n)%nat && (n <=? 222)%nat && negb (n =? 215)%nat)
  then ascii_of_nat (n + 32) else c.

Fixpoint toLowerCase (s : string) : string :=
  match s with
  | EmptyString => EmptyString
  | String c s' => String (toLowerCaseChar c) (toLowerCase s')
  end.

(** [s.startsWith(p)] *)
Fixpoint startsWith (s p : string) : bool :=
  match p, s with
  | EmptyString, _ => true
  | String _ _, EmptyString => false
  | String a p', String b s' => Ascii.eqb a b && startsWith s' p'
  end.

(** [s.includes(sub)]: [sub] occurs in [s] at some position. *)
Fixpoint includes (s sub : string) : bool :=
  startsWith s sub
  || match s with
     | EmptyString => false
     | String _ s' => includes s' sub
     end.

(** [arr.includes(x)] on an array of strings. *)
Definition arrayIncludes (l : list string) (x : string) : bool :=
  existsb (String.eqb x) l.

End Js.

(** ** The hosted data service, as the client sees it *)

Module User.
Record t := { id : string }.
End User.

Module Profile.
Record t := { id : string; full_name : option string; avatar_url : option string }.
End Profile.

(** A row of the [components] table joined with its author's profile,
    plus the two viewer annotations the feed adds.  Timestamps are kept
    as instants; counters are the integer columns of the service. *)
Module Component.
Record t := {
  id : string;
  user_id : string;
  title : string;
  description : option string;
  code : string;
  tags : option (list string);
  preview_image_url : option string;
  likes_count : option Z;
  saves_count : option Z;
  created_at : option Z;
  profiles : option Profile.t;
  is_liked : option bool;
  is_saved : option bool
}.

Definition set_is_liked (b : bool) (c : t) : t :=
  {| id := id c; user_id := user_id c; title := title c;
     description := description c; code := code c; tags := tags c;
     preview_image_url := preview_image_url c;
     likes_count := likes_count c; saves_count := saves_count c;
     created_at := created_at c; profiles := profiles c;
     is_liked := Some b; is_saved := is_saved c |}.

Definition set_is_saved (b : bool) (c : t) : t :=
  {| id := id c; user_id := user_id c; title := title c;
     description := description c; code := code c; tags := tags c;
     preview_image_url := preview_image_url c;
     likes_count := likes_count c; saves_count := saves_count c;
     created_at := created_at c; profiles := profiles c;
     is_liked := is_liked c; is_saved := Some b |}.

Definition set_profiles (p : option Profile.t) (c : t) : t :=
  {| id := id c; user_id := user_id c; title := title c;
     description := description c; code := code c; tags := tags c;
     preview_image_url := preview_image_url c;
     likes_count := likes_count c; saves_count := saves_count c;
     created_at := created_at c; profiles := p;
     is_liked := is_liked c; is_saved := is_saved c |}.
End Component.

(** One element of the saved-mode query: a saved-join row with the
    component it references embedded ([components!inner]). *)
Module SavedItem.
Record t := { component_id : string; components : Component.t }.
End SavedItem.

(** One element of a membership query ([select('component_id')]). *)
Module MemberRow.
Record t := { component_id : string }.
End MemberRow.

(** The row the publish form inserts. *)
Module NewComponent.
Record t := {
  user_id : string;
  title : string;
  description : option string;
  code : string;
  tags : list string;
  preview_image_url : option string
}.
End NewComponent.

Module File.
Record t := { name : string }.
End File.

Inductive JoinTable := likes | saved_components.
Inductive OrderColumn := by_created_at | by_likes_count.

(** The requests the three components send. *)
Inductive Request :=
| JoinDelete (table : JoinTable) (user_id component_id : string)
| JoinInsert (table : JoinTable) (user_id component_id : string)
| SavedSelect (user_id : string)
| ComponentsSelect (order_desc : OrderColumn)
| MembershipSelect (table : JoinTable) (user_id : string) (component_ids : list string)
| StorageUpload (bucket path : string) (file : File.t)
| ComponentsInsert (row : NewComponent.t).

(** An awaited request settles in one of two ways: the promise resolves
    to a result object [{ data, error }], or it rejects. *)
Record Response (A : Type) := { data : option A; error : option Js.Error }.
Arguments data {A} _.
Arguments error {A} _.

Inductive Outcome (A : Type) :=
| Resolved (r : Response A)
| Rejected (reason : Js.Error).
Arguments Resolved {A} r.
Arguments Rejected {A} reason.

(** The data client of one handler run: how each request it may send
    settles.  [storage_public_url] is synchronous. *)
Record DataClient := {
  join_delete : JoinTable -> string -> string -> Outcome unit;
  join_insert : JoinTable -> string -> string -> Outcome unit;
  saved_select : string -> Outcome (list SavedItem.t);
  components_select : OrderColumn -> Outcome (list Component.t);
  membership_select : JoinTable -> string -> list string -> Outcome (list MemberRow.t);
  storage_upload : string -> string -> File.t -> Outcome unit;
  storage_public_url : string -> string -> string;
  components_insert : NewComponent.t -> Outcome unit
}.

(** ** Observable effects and the handler monad *)

Inductive Event :=
| EvRequest (r : Request)
| EvToastError (msg : string)
| EvToastSuccess (msg : string)
| EvConsoleError (label : string) (err : Js.Error)
| EvNavigate (path : string)
| EvCallback (name : string)
| EvPreventDefault.

Inductive Completion (A : Type) :=
| Normal (a : A)
| Throw (e : Js.Error).
Arguments Normal {A} a.
Arguments Throw {A} e.

Record Run (S A : Type) := { completion : Completion A; state : S; trace : list Event }.
Arguments completion {S A} _.
Arguments state {S A} _.
Arguments trace {S A} _.

Definition M (S A : Type) : Type := S -> Run S A.

Section HandlerMonad.
Context {S : Type}.

Definition ret {A} (a : A) : M S A :=
  fun s => {| completion := Normal a; state := s; trace := [] |}.

Definition bind {A B} (m : M S A) (k : A -> M S B) : M S B :=
  fun s =>
    let r := m s in
    match completion r with
    | Normal a =>
        let r' := k a (state r) in
        {| completion := completion r'; state := state r';
           trace := trace r ++ trace r' |}
    | Throw e => {| completion := Throw e; state := state r; trace := trace r |}
    end.

Definition throw {A} (e : Js.Error) : M S A :=
  fun s => {| completion := Throw e; state := s; trace := [] |}.

Definition emit (ev : Event) : M S unit :=
  fun s => {| completion := Normal tt; state := s; trace := [ev] |}.

Definition gets {A} (f : S -> A) : M S A :=
  fun s => {| completion := Normal (f s); state := s; trace := [] |}.

Definition modify (f : S -> S) : M S unit :=
  fun s => {| completion := Normal tt; state := f s; trace := [] |}.

(** [try { body } catch (error) { handler error }] *)
Definition try_catch {A} (body : M S A) (handler : Js.Error -> M S A) : M S A :=
  fun s =>
    let r := body s in
    match completion r with
    | Normal _ => r
    | Throw e =>
        let r' := handler e (state r) in
        {| completion := completion r'; state := state r';
           trace := trace r ++ trace r' |}
    end.

(** [try { body } finally { cleanup }]: the cleanup runs either way and
    the completion of the body is kept unless the cleanup throws. *)
Definition try_finally {A} (body : M S A) (cleanup : M S unit) : M S A :=
  fun s =>
    let r := body s in
    let r' := cleanup (state r) in
    {| completion := match completion r' with
                     | Normal _ => completion r
                     | Throw e => Throw e
                     end;
       state := state r'; trace := trace r ++ trace r' |}.

(** [await request]: the request is sent; a rejection is thrown at the
    await, a resolution yields the result object. *)
Definition await {A} (req : Request) (o : Outcome A) : M S (Response A) :=
  fun s =>
    {| completion := match o with
                     | Resolved r => Normal r
                     | Rejected reason => Throw reason
                     end;
       state := s; trace := [EvRequest req] |}.

(** [await Promise.all([req1, req2])]: both requests are sent; the
    await throws as soon as one of them rejects. *)
Definition await_all {A B} (req1 : Request) (o1 : Outcome A)
    (req2 : Request) (o2 : Outcome B) : M S (Response A * Response B) :=
  fun s =>
    {| completion := match o1, o2 with
                     | Resolved r1, Resolved r2 => Normal (r1, r2)
                     | Rejected reason, _ => Throw reason
                     | _, Rejected reason => Throw reason
                     end;
       state := s; trace := [EvRequest req1; EvRequest req2] |}.

Definition toast_error (msg : string) : M S unit := emit (EvToastError msg).
Definition toast_success (msg : string) : M S unit := emit (EvToastSuccess msg).
Definition console_error (label : string) (err : Js.Error) : M S unit :=
  emit (EvConsoleError label err).
Definition navigate (path : string) : M S unit := emit (EvNavigate path).

(** An optional callback prop, called as [cb?.()].  A callback is
    described by what calling it throws, if anything. *)
Definition call_optional (name : string) (cb : option (option Js.Error)) : M S unit :=
  match cb with
  | None => ret tt
  | Some None => emit (EvCallback name)
  | Some (Some e) => bind (emit (EvCallback name)) (fun _ => throw e)
  end.

End HandlerMonad.

#[global] Instance M_ret {S} : MRet (M S) := @ret S.
#[global] Instance M_bind {S} : MBind (M S) := fun A B k m => bind m k.

(** ** ComponentCard: the like and save toggles *)

Module ComponentCard.

Record Props := {
  component : Component.t;
  onLike : option (option Js.Error);
  onSave : option (option Js.Error)
}.

(** The four [useState] cells of a card. *)
Record State := {
  isLiked : bool;
  isSaved : bool;
  likesCount : Z;
  savesCount : Z
}.

(** [useState(component.is_liked || false)], [useState(component.likes_count || 0)]
    and their siblings: a missing flag is [false], a null counter is [0]
    (the other falsy values, [false] and [0], are their own defaults). *)
Definition initialState (c : Component.t) : State :=
  {| isLiked := default false (Component.is_liked c);
     isSaved := default false (Component.is_saved c);
     likesCount := default 0 (Component.likes_count c);
     savesCount := default 0 (Component.saves_count c) |}.

Definition setIsLiked (b : bool) : M State unit :=
  modify (fun s => {| isLiked := b; isSaved := isSaved s;
                      likesCount := likesCount s; savesCount := savesCount s |}).

Definition setIsSaved (b : bool) : M State unit :=
  modify (fun s => {| isLiked := isLiked s; isSaved := b;
                      likesCount := likesCount s; savesCount := savesCount s |}).

Definition setLikesCount (f : Z -> Z) : M State unit :=
  modify (fun s => {| isLiked := isLiked s; isSaved := isSaved s;
                      likesCount := f (likesCount s); savesCount := savesCount s |}).

Definition setSavesCount (f : Z -> Z) : M State unit :=
  modify (fun s => {| isLiked := isLiked s; isSaved := isSaved s;
                      likesCount := likesCount s; savesCount := f (savesCount s) |}).

Definition handleLike (client : DataClient) (user : option User.t)
    (props : Props) : M State unit :=
  match user with
  | None => toast_error "Please sign in to like components"
  | Some u =>
      try_catch
        (liked ← gets isLiked;
         (if liked : bool then
            await (JoinDelete likes (User.id u) (Component.id (component props)))
                  (join_delete client likes (User.id u) (Component.id (component props)));;
            setIsLiked false;;
            setLikesCount (fun prev => prev - 1)
          else
            await (JoinInsert likes (User.id u) (Component.id (component props)))
                  (join_insert client likes (User.id u) (Component.id (component props)));;
            setIsLiked true;;
            setLikesCount (fun prev => prev + 1));;
         call_optional "onLike" (onLike props))
        (fun _ => toast_error "Failed to update like")
  end.

Definition handleSave (client : DataClient) (user : option User.t)
    (props : Props) : M State unit :=
  match user with
  | None => toast_error "Please sign in to save components"
  | Some u =>
      try_catch
        (saved ← gets isSaved;
         (if saved : bool then
            await (JoinDelete saved_components (User.id u) (Component.id (component props)))
                  (join_delete client saved_components (User.id u)
                     (Component.id (component props)));;
            setIsSaved false;;
            setSavesCount (fun prev => prev - 1)
          else
            await (JoinInsert saved_components (User.id u) (Component.id (component props)))
                  (join_insert client saved_components (User.id u)
                     (Component.id (component props)));;
            setIsSaved true;;
            setSavesCount (fun prev => prev + 1));;
         call_optional "onSave" (onSave props))
        (fun _ => toast_error "Failed to update save")
  end.

(** The author line of a card: [component.profiles?.full_name || 'Anonymous']. *)
Definition authorName (c : Component.t) : string :=
  match Component.profiles c with
  | Some p =>
      match Profile.full_name p with
      | Some n => if Js.truthy n then n else "Anonymous"
      | None => "Anonymous"
      end
  | None => "Anonymous"
  end.

End ComponentCard.

(** ** Home: assembling the feed *)

Module Home.

Inductive SortBy := newest | trending | saved.

Record State := {
  components : list Component.t;
  loading : bool;
  searchTerm : string;
  sortBy : SortBy
}.

Definition setLoading (b : bool) : M State unit :=
  modify (fun s => {| components := components s; loading := b;
                      searchTerm := searchTerm s; sortBy := sortBy s |}).

Definition setComponents (l : list Component.t) : M State unit :=
  modify (fun s => {| components := l; loading := loading s;
                      searchTerm := searchTerm s; sortBy := sortBy s |}).

(** [new Set(rows?.map(r => r.component_id) || [])] *)
Definition membership (rows : option (list MemberRow.t)) : gset string :=
  list_to_set (map MemberRow.component_id (default [] rows)).

(** The projection of one saved-mode item:
    [{ ...item.components, profiles: item.components.profiles, is_saved: true }] *)
Definition savedComponent (item : SavedItem.t) : Component.t :=
  Component.set_is_saved true
    (Component.set_profiles (Component.profiles (SavedItem.components item))
       (SavedItem.components item)).

(** The saved branch of [fetchComponents]. *)
Definition fetchSaved (client : DataClient) (u : User.t) : M State unit :=
  r ← await (SavedSelect (User.id u)) (saved_select client (User.id u));
  match error r with
  | Some savedError => throw savedError
  | None =>
      let savedComponents := map savedComponent (default [] (data r)) in
      if (0 <? List.length savedComponents)%nat then
        let componentIds := map Component.id savedComponents in
        lr ← await (MembershipSelect likes (User.id u) componentIds)
                   (membership_select client likes (User.id u) componentIds);
        let likedIds := membership (data lr) in
        setComponents
          (map (fun c => Component.set_is_liked
                           (bool_decide (Component.id c ∈ likedIds)) c)
               savedComponents)
      else setComponents []
  end.

(** The regular branch of [fetchComponents]. *)
Definition fetchRegular (client : DataClient) (user : option User.t)
    (mode : SortBy) : M State unit :=
  let order := match mode with
               | trending => by_likes_count
               | _ => by_created_at
               end in
  r ← await (ComponentsSelect order) (components_select client order);
  match error r with
  | Some e => throw e
  | None =>
      let componentsData := default [] (data r) in
      match user with
      | Some u =>
          if (0 <? List.length componentsData)%nat then
            let componentIds := map Component.id componentsData in
            '(likesResult, savesResult) ←
               await_all
                 (MembershipSelect likes (User.id u) componentIds)
                 (membership_select client likes (User.id u) componentIds)
                 (MembershipSelect saved_components (User.id u) componentIds)
                 (membership_select client saved_components (User.id u) componentIds);
            let likedIds := membership (data likesResult) in
            let savedIds := membership (data savesResult) in
            setComponents
              (map (fun c => Component.set_is_saved
                               (bool_decide (Component.id c ∈ savedIds))
                               (Component.set_is_liked
                                  (bool_decide (Component.id c ∈ likedIds)) c))
                   componentsData)
          else setComponents componentsData
      | None => setComponents componentsData
      end
  end.

Definition fetchComponents (client : DataClient) (user : option User.t) : M State unit :=
  try_finally
    (try_catch
       (setLoading true;;
        mode ← gets sortBy;
        match mode, user with
        | saved, Some u => fetchSaved client u
        | _, _ => fetchRegular client user mode
        end)
       (fun error =>
          console_error "Error fetching components:" error;;
          toast_error "Failed to load components"))
    (setLoading false).

(** The predicate of the client-side filter: the lower-cased search
    term occurs in the lower-cased title, description or one of the
    tags; a null description or tag list matches nothing. *)
Definition matchesSearch (term : string) (component : Component.t) : bool :=
  Js.includes (Js.toLowerCase (Component.title component)) (Js.toLowerCase term)
  || match Component.description component with
     | Some d => Js.includes (Js.toLowerCase d) (Js.toLowerCase term)
     | None => false
     end
  || match Component.tags component with
     | Some ts =>
         existsb (fun tag => Js.includes (Js.toLowerCase tag) (Js.toLowerCase term)) ts
     | None => false
     end.

Definition filteredComponents (st : State) : list Component.t :=
  List.filter (matchesSearch (searchTerm st)) (components st).

Definition setSearchTerm (v : string) : M State unit :=
  modify (fun s => {| components := components s; loading := loading s;
                      searchTerm := v; sortBy := sortBy s |}).

Definition setSortBy (mode : SortBy) : M State unit :=
  modify (fun s => {| components := components s; loading := loading s;
                      searchTerm := searchTerm s; sortBy := mode |}).

(** The sort buttons offered: the saved one only to a signed-in viewer. *)
Definition sortButtons (user : option User.t) : list SortBy :=
  newest :: trending :: match user with Some _ => [saved] | None => [] end.

(** What the page shows below the toolbar: six placeholders while
    loading, a two-line message when the filtered list is empty, the
    grid of cards otherwise. *)
Inductive View :=
| Skeleton (placeholders : nat)
| EmptyState (headline hint : string)
| Grid (cards : list Component.t).

Definition view (st : State) : View :=
  if loading st then Skeleton 6
  else if (List.length (filteredComponents st) =? 0)%nat then
    match sortBy st with
    | saved => EmptyState "No saved components yet"
                 "Start saving components to see them here"
    | _ => EmptyState "No components found" "Try adjusting your search terms"
    end
  else Grid (filteredComponents st).

End Home.

(** ** Publish: submitting the form *)

Module Publish.

Record FormData := {
  title : string;
  description : string;
  code : string;
  tags : list string;
  tagInput : string
}.

Record State := {
  formData : FormData;
  previewImage : option File.t;
  loading : bool
}.

Definition setLoading (b : bool) : M State unit :=
  modify (fun s => {| formData := formData s; previewImage := previewImage s;
                      loading := b |}).

(** The storage path of a preview image:
    [previews/${Math.random()}.${name.split('.').pop()}];
    [random] is the rendering of the number drawn. *)
Definition previewPath (random : string) (file : File.t) : string :=
  let fileExt := Js.pop (Js.split "." (File.name file)) in
  let fileName := random ++ "." ++ Js.interpolate fileExt in
  "previews/" ++ fileName.

(** The upload step: the public reference of the uploaded image, or
    [null] when no image was selected or the upload reported an error. *)
Definition uploadPreview (client : DataClient) (random : string)
    (image : option File.t) : M State (option string) :=
  match image with
  | Some file =>
      let filePath := previewPath random file in
      r ← await (StorageUpload "component-previews" filePath file)
                (storage_upload client "component-previews" filePath file);
      match error r with
      | Some uploadError =>
          console_error "Upload error:" uploadError;;
          mret None
      | None => mret (Some (storage_public_url client "component-previews" filePath))
      end
  | None => mret None
  end.

(** The row built from the form for the signed-in author. *)
Definition newRow (u : User.t) (fd : FormData) (previewImageUrl : option string)
    : NewComponent.t :=
  {| NewComponent.user_id := User.id u;
     NewComponent.title := Js.trim (title fd);
     NewComponent.description :=
       if Js.truthy (Js.trim (description fd)) then Some (Js.trim (description fd))
       else None;
     NewComponent.code := Js.trim (code fd);
     NewComponent.tags := tags fd;
     NewComponent.preview_image_url := previewImageUrl |}.

Definition handleSubmit (client : DataClient) (user : option User.t)
    (random : string) : M State unit :=
  emit EvPreventDefault;;
  match user with
  | None => mret tt
  | Some u =>
      fd ← gets formData;
      image ← gets previewImage;
      if negb (Js.truthy (Js.trim (title fd))) || negb (Js.truthy (Js.trim (code fd)))
      then toast_error "Please fill in all required fields"
      else
        setLoading true;;
        try_finally
          (try_catch
             (previewImageUrl ← uploadPreview client random image;
              r ← await (ComponentsInsert (newRow u fd previewImageUrl))
                        (components_insert client (newRow u fd previewImageUrl));
              match error r with
              | Some e => throw e
              | None =>
                  toast_success "Component published successfully!";;
                  navigate "/"
              end)
             (fun error =>
                console_error "Error publishing component:" error;;
                toast_error "Failed to publish component"))
          (setLoading false)
  end.

(** The state the form starts from. *)
Definition initialState : State :=
  {| formData := {| title := ""; description := ""; code := "";
                    tags := []; tagInput := "" |};
     previewImage := None;
     loading := false |}.

Definition setFormData (f : FormData -> FormData) : M State unit :=
  modify (fun s => {| formData := f (formData s); previewImage := previewImage s;
                      loading := loading s |}).

Definition setPreviewImage (image : option File.t) : M State unit :=
  modify (fun s => {| formData := formData s; previewImage := image;
                      loading := loading s |}).

Definition handleTagAdd : M State unit :=
  fd ← gets formData;
  let tag := Js.trim (tagInput fd) in
  if Js.truthy tag && negb (Js.arrayIncludes (tags fd) tag)
  then setFormData (fun prev =>
         {| title := title prev; description := description prev; code := code prev;
            tags := tags prev ++ [tag]; tagInput := "" |})
  else mret tt.

Definition handleTagRemove (tagToRemove : string) : M State unit :=
  setFormData (fun prev =>
    {| title := title prev; description := description prev; code := code prev;
       tags := List.filter (fun tag => negb (String.eqb tag tagToRemove)) (tags prev);
       tagInput := tagInput prev |}).

(** The [onChange] handlers of the inputs. *)
Definition changeTitle (v : string) : M State unit :=
  setFormData (fun prev =>
    {| title := v; description := description prev; code := code prev;
       tags := tags prev; tagInput := tagInput prev |}).

Definition changeDescription (v : string) : M State unit :=
  setFormData (fun prev =>
    {| title := title prev; description := v; code := code prev;
       tags := tags prev; tagInput := tagInput prev |}).

Definition changeCode (v : string) : M State unit :=
  setFormData (fun prev =>
    {| title := title prev; description := description prev; code := v;
       tags := tags prev; tagInput := tagInput prev |}).

Definition changeTagInput (v : string) : M State unit :=
  setFormData (fun prev =>
    {| title := title prev; description := description prev; code := code prev;
       tags := tags prev; tagInput := v |}).

(** [setPreviewImage(e.target.files?.[0] || null)] *)
Definition changeFiles (files : option (list File.t)) : M State unit :=
  setPreviewImage (match files with Some (f :: _) => Some f | _ => None end).

(** What the user can do to the form before submitting it. *)
Inductive FormEvent :=
| TitleTyped (v : string)
| DescriptionTyped (v : string)
| CodeTyped (v : string)
| TagInputTyped (v : string)
| TagAddPressed
| TagRemovePressed (tag : string)
| FilesChosen (files : option (list File.t)).

Definition handleEvent (ev : FormEvent) : M State unit :=
  match ev with
  | TitleTyped v => changeTitle v
  | DescriptionTyped v => changeDescription v
  | CodeTyped v => changeCode v
  | TagInputTyped v => changeTagInput v
  | TagAddPressed => handleTagAdd
  | TagRemovePressed tag => handleTagRemove tag
  | FilesChosen files => changeFiles files
  end.

(** The form state after a sequence of such events. *)
Definition edited (evs : list FormEvent) (st : State) : State :=
  fold_left (fun s ev => state (handleEvent ev s)) evs st.

End Publish.

(** ** Vocabulary of the properties *)

(** The requests sent during a run, in order. *)
Definition requests (tr : list Event) : list Request :=
  omap (fun ev => match ev with EvRequest r => Some r | _ => None end) tr.

(** The error notices shown to the user during a run, in order. *)
Definition notices (tr : list Event) : list string :=
  omap (fun ev => match ev with EvToastError msg => Some msg | _ => None end) tr.

(** How the client settles a request. *)
Definition rejects (client : DataClient) (req : Request) : bool :=
  match req with
  | JoinDelete t u c => if join_delete client t u c is Rejected _ then true else false
  | JoinInsert t u c => if join_insert client t u c is Rejected _ then true else false
  | SavedSelect u => if saved_select client u is Rejected _ then true else false
  | ComponentsSelect o => if components_select client o is Rejected _ then true else false
  | MembershipSelect t u ids =>
      if membership_select client t u ids is Rejected _ then true else false
  | StorageUpload b p f => if storage_upload client b p f is Rejected _ then true else false
  | ComponentsInsert row => if components_insert client row is Rejected _ then true else false
  end.

Definition has_error {A} (o : Outcome A) : bool :=
  match o with
  | Resolved r => bool_decide (is_Some (error r))
  | Rejected _ => false
  end.

Definition reports_error (client : DataClient) (req : Request) : bool :=
  match req with
  | JoinDelete t u c => has_error (join_delete client t u c)
  | JoinInsert t u c => has_error (join_insert client t u c)
  | SavedSelect u => has_error (saved_select client u)
  | ComponentsSelect o => has_error (components_select client o)
  | MembershipSelect t u ids => has_error (membership_select client t u ids)
  | StorageUpload b p f => has_error (storage_upload client b p f)
  | ComponentsInsert row => has_error (components_insert client row)
  end.

(** A request fails when its promise rejects or its result carries an error. *)
Definition fails (client : DataClient) (req : Request) : bool :=
  rejects client req || reports_error client req.

(** The query a feed is built from, as opposed to the membership
    queries that only annotate it. *)
Definition is_feed_query (req : Request) : bool :=
  match req with
  | SavedSelect _ | ComponentsSelect _ => true
  | _ => false
  end.

(** The request a like (resp. save) toggle sends from a given flag. *)
Definition toggleRequest (table : JoinTable) (u : User.t) (c : Component.t)
    (flag : bool) : Request :=
  if flag then JoinDelete table (User.id u) (Component.id c)
  else JoinInsert table (User.id u) (Component.id c).

(** How the client settles that request. *)
Definition toggleOutcome (client : DataClient) (table : JoinTable) (u : User.t)
    (c : Component.t) (flag : bool) : Outcome unit :=
  if flag then join_delete client table (User.id u) (Component.id c)
  else join_insert client table (User.id u) (Component.id c).

(** A like click both surfaced an error notice and changed the flag and
    the counter it started from. *)
Definition notice_and_flip (st : ComponentCard.State)
    (r : Run ComponentCard.State unit) : Prop :=
  notices (trace r) ≠ [] ∧
  ComponentCard.isLiked (state r) = negb (ComponentCard.isLiked st) ∧
  ComponentCard.likesCount (state r) ≠ ComponentCard.likesCount st.

(** Descending order on a nullable column: among the rows whose value is
    not null, an earlier row never has a smaller value than a later one.
    Where the service places null values is left open. *)
Definition desc_ok (key : Component.t -> option Z) (a b : Component.t) : Prop :=
  forall x y, key a = Some x -> key b = Some y -> y <= x.

Definition sorted_desc (key : Component.t -> option Z) (l : list Component.t) : Prop :=
  StronglySorted (desc_ok key) l.

Definition column (o : OrderColumn) : Component.t -> option Z :=
  match o with
  | by_created_at => Component.created_at
  | by_likes_count => Component.likes_count
  end.

(** The service honours [order(column, { ascending: false })]. *)
Definition honours_order (client : DataClient) : Prop :=
  forall o r rows,
    components_select client o = Resolved r -> data r = Some rows ->
    sorted_desc (column o) rows.

(** The service honours the saved-mode query for a viewer: every item
    it returns is a row of the saved-join table for that viewer, with
    the referenced component embedded.  [saved_rows] is the table as
    pairs (user, component). *)
Definition honours_saved (saved_rows : list (string * string)) (client : DataClient)
    (uid : string) : Prop :=
  forall r items item,
    saved_select client uid = Resolved r -> data r = Some items -> item ∈ items ->
    (uid, SavedItem.component_id item) ∈ saved_rows /\
    Component.id (SavedItem.components item) = SavedItem.component_id item.

(** The publish insert was sent and resolved without an error. *)
Definition published (client : DataClient) (tr : list Event) : Prop :=
  exists row r,
    EvRequest (ComponentsInsert row) ∈ tr /\
    components_insert client row = Resolved r /\ error r = None.

(** The callback props called during a run, in order. *)
Definition callbacks (tr : list Event) : list string :=
  omap (fun ev => match ev with EvCallback name => Some name | _ => None end) tr.

(** The promise of a request resolved (with or without an error in its
    result). *)
Definition resolves {A} (o : Outcome A) : bool :=
  match o with Resolved _ => true | Rejected _ => false end.

(** The search term occurs in a text, letter case aside. *)
Definition occurs_in (term text : string) : Prop :=
  exists a b, Js.toLowerCase text = a ++ Js.toLowerCase term ++ b.

(** A request that only reads. *)
Definition is_select (req : Request) : bool :=
  match req with
  | SavedSelect _ | ComponentsSelect _ | MembershipSelect _ _ _ => true
  | _ => false
  end.

(** The component ids a membership query returned. *)
Definition returned_ids (r : Response (list MemberRow.t)) : list string :=
  map MemberRow.component_id (default [] (data r)).

(** A stored feed entry [c] is the fetched row [row] with its two
    viewer flags set from the ids the membership queries returned. *)
Definition annotated (liked saved : list string) (row c : Component.t) : Prop :=
  exists l s : bool,
    c = Component.set_is_saved s (Component.set_is_liked l row) /\
    (l = true <-> Component.id row ∈ liked) /\
    (s = true <-> Component.id row ∈ saved).

(** A stored saved-mode entry [c] is the component embedded in [item],
    marked as saved, with its liked flag set from the returned ids. *)
Definition annotated_saved (liked : list string) (item : SavedItem.t)
    (c : Component.t) : Prop :=
  exists l : bool,
    c = Component.set_is_liked l (Home.savedComponent item) /\
    (l = true <-> Component.id (SavedItem.components item) ∈ liked).

(** A tag as the form stores it: not empty and without surrounding
    white space. *)
Definition clean_tag (tag : string) : Prop :=
  tag ≠ "" /\ Js.trim tag = tag.

(** ** Sample data *)

Module Sample.

Definition alice : User.t := {| User.id := "alice" |}.

Definition ok {A} (d : option A) : Outcome A :=
  Resolved {| data := d; error := None |}.

Definition err {A} (msg : string) : Outcome A :=
  Resolved {| data := None; error := Some msg |}.

Definition card (cid : string) (likes_n created : Z) : Component.t :=
  {| Component.id := cid; Component.user_id := "bob";
     Component.title := "Button"; Component.description := None;
     Component.code := "<button/>"; Component.tags := Some ["ui"];
     Component.preview_image_url := None;
     Component.likes_count := Some likes_n; Component.saves_count := Some 0;
     Component.created_at := Some created; Component.profiles := None;
     Component.is_liked := None; Component.is_saved := None |}.

Definition c1 : Component.t := card "c1" 5 100.
Definition c2 : Component.t := card "c2" 9 200.

Definition props (c : Component.t) : ComponentCard.Props :=
  {| ComponentCard.component := c;
     ComponentCard.onLike := Some None;
     ComponentCard.onSave := Some None |}.

(** A client described by the outcome of each kind of request. *)
Definition client (mutation : Outcome unit)
    (saved_rows : Outcome (list SavedItem.t))
    (feed : OrderColumn -> Outcome (list Component.t))
    (members : JoinTable -> Outcome (list MemberRow.t))
    (upload insert : Outcome unit) : DataClient :=
  {| join_delete := fun _ _ _ => mutation;
     join_insert := fun _ _ _ => mutation;
     saved_select := fun _ => saved_rows;
     components_select := feed;
     membership_select := fun t _ _ => members t;
     storage_upload := fun _ _ _ => upload;
     storage_public_url := fun bucket path => "https://cdn/" ++ bucket ++ "/" ++ path;
     components_insert := fun _ => insert |}.

(** Two components, one liked and one saved by alice. *)
Definition feed (o : OrderColumn) : Outcome (list Component.t) :=
  match o with
  | by_created_at => ok (Some [c2; c1])
  | by_likes_count => ok (Some [c2; c1])
  end.

Definition members (t : JoinTable) : Outcome (list MemberRow.t) :=
  match t with
  | likes => ok (Some [ {| MemberRow.component_id := "c2" |} ])
  | saved_components => ok (Some [ {| MemberRow.component_id := "c1" |} ])
  end.

Definition saved_table : list (string * string) := [("alice", "c1")].

Definition saved_items : Outcome (list SavedItem.t) :=
  ok (Some [ {| SavedItem.component_id := "c1"; SavedItem.components := c1 |} ]).

Definition healthy : DataClient :=
  client (ok None) saved_items feed members (ok None) (ok None).

(** Every mutation promise rejects. *)
Definition rejecting : DataClient :=
  client (Rejected "network") saved_items feed members (ok None) (ok None).

(** Every mutation resolves with an error in its result. *)
Definition erroring : DataClient :=
  client (err "duplicate key") saved_items feed members (ok None) (ok None).

(** The likes membership query resolves with an error. *)
Definition likes_unavailable : DataClient :=
  client (ok None) saved_items feed
    (fun t => match t with likes => err "timeout" | saved_components => members t end)
    (ok None) (ok None).

(** The storage upload call rejects. *)
Definition upload_unreachable : DataClient :=
  client (ok None) saved_items feed members (Rejected "Failed to fetch") (ok None).

(** The storage upload resolves with an error. *)
Definition upload_refused : DataClient :=
  client (ok None) saved_items feed members (err "payload too large") (ok None).

Definition cardState (liked : bool) (n : Z) : ComponentCard.State :=
  {| ComponentCard.isLiked := liked; ComponentCard.isSaved := liked;
     ComponentCard.likesCount := n; ComponentCard.savesCount := n |}.

Definition homeState (mode : Home.SortBy) (l : list Component.t) : Home.State :=
  {| Home.components := l; Home.loading := false;
     Home.searchTerm := ""; Home.sortBy := mode |}.

Definition form (t c : string) : Publish.FormData :=
  {| Publish.title := t; Publish.description := ""; Publish.code := c;
     Publish.tags := ["ui"]; Publish.tagInput := "" |}.

Definition publishState (t c : string) (image : option File.t) : Publish.State :=
  {| Publish.formData := form t c; Publish.previewImage := image;
     Publish.loading := false |}.

Definition shot : File.t := {| File.name := "shot.v2.png" |}.

End Sample.

(** ** Proof support *)

(** Unfolds the monad so that a handler run becomes a term over the
    outcomes of its requests. *)
Ltac run_handler :=
  cbv [mbind mret M_bind M_ret bind ret throw emit gets modify try_catch
       try_finally await await_all toast_error toast_success console_error
       navigate call_optional completion state trace].

Ltac card_step :=
  cbv [ComponentCard.handleLike ComponentCard.handleSave
       ComponentCard.setIsLiked ComponentCard.setIsSaved
       ComponentCard.setLikesCount ComponentCard.setSavesCount];
  run_handler.

Section ComponentCardFacts.
Import ComponentCard.
Variables (client : DataClient) (u : User.t) (props : Props).

(** The local state after a like click whose request resolves: the
    flag is flipped and the counter moves by one, whatever the result
    object holds and whatever the refresh callback does. *)
Lemma handleLike_resolved (st : State) (r : Response unit) :
  toggleOutcome client likes u (component props) (isLiked st) = Resolved r ->
  state (handleLike client (Some u) props st) =
    {| isLiked := negb (isLiked st); isSaved := isSaved st;
       likesCount := if isLiked st then likesCount st - 1 else likesCount st + 1;
       savesCount := savesCount st |}.
Proof.
  intros H. unfold toggleOutcome in H. card_step.
  destruct (isLiked st); rewrite H; destruct (onLike props) as [[e|]|]; reflexivity.
Qed.

Lemma handleSave_resolved (st : State) (r : Response unit) :
  toggleOutcome client saved_components u (component props) (isSaved st) = Resolved r ->
  state (handleSave client (Some u) props st) =
    {| isLiked := isLiked st; isSaved := negb (isSaved st);
       likesCount := likesCount st;
       savesCount := if isSaved st then savesCount st - 1 else savesCount st + 1 |}.
Proof.
  intros H. unfold toggleOutcome in H. card_step.
  destruct (isSaved st); rewrite H; destruct (onSave props) as [[e|]|]; reflexivity.
Qed.

(** A like click whose request rejects: the request was sent, the
    failure notice is the only other effect, and the state is the one
    the click started from. *)
Lemma handleLike_rejected (st : State) (reason : Js.Error) :
  toggleOutcome client likes u (component props) (isLiked st) = Rejected reason ->
  handleLike client (Some u) props st =
    {| completion := Normal tt; state := st;
       trace := [EvRequest (toggleRequest likes u (component props) (isLiked st));
                 EvToastError "Failed to update like"] |}.
Proof.
  intros H. unfold toggleOutcome in H. card_step. unfold toggleRequest.
  destruct (isLiked st); rewrite H; reflexivity.
Qed.

Lemma handleSave_rejected (st : State) (reason : Js.Error) :
  toggleOutcome client saved_components u (component props) (isSaved st) = Rejected reason ->
  handleSave client (Some u) props st =
    {| completion := Normal tt; state := st;
       trace := [EvRequest (toggleRequest saved_components u (component props) (isSaved st));
                 EvToastError "Failed to update save"] |}.
Proof.
  intros H. unfold toggleOutcome in H. card_step. unfold toggleRequest.
  destruct (isSaved st); rewrite H; reflexivity.
Qed.

End ComponentCardFacts.

(** ** ComponentCard: properties of the toggles *)

(** C1, as amended.  A like or save click by a signed-in user whose
    request promise rejects surfaces the failure notice and leaves the
    flag and the counter as they were: the local update is written
    after the await, so there is nothing to roll back.  Whenever the
    request resolves, also with an error in its result, the flag is
    flipped and the counter moved by one, and nothing undoes it. *)
Theorem toggle_settlement (client : DataClient) (u : User.t)
    (props : ComponentCard.Props) (st : ComponentCard.State) :
  let like := ComponentCard.handleLike client (Some u) props st in
  let save := ComponentCard.handleSave client (Some u) props st in
  match toggleOutcome client likes u (ComponentCard.component props)
          (ComponentCard.isLiked st) with
  | Rejected _ =>
      notices (trace like) = ["Failed to update like"] /\ state like = st
  | Resolved _ =>
      ComponentCard.isLiked (state like) = negb (ComponentCard.isLiked st) /\
      ComponentCard.likesCount (state like) =
        (if ComponentCard.isLiked st then ComponentCard.likesCount st - 1
         else ComponentCard.likesCount st + 1)
  end /\
  match toggleOutcome client saved_components u (ComponentCard.component props)
          (ComponentCard.isSaved st) with
  | Rejected _ =>
      notices (trace save) = ["Failed to update save"] /\ state save = st
  | Resolved _ =>
      ComponentCard.isSaved (state save) = negb (ComponentCard.isSaved st) /\
      ComponentCard.savesCount (state save) =
        (if ComponentCard.isSaved st then ComponentCard.savesCount st - 1
         else ComponentCard.savesCount st + 1)
  end.
Proof.
  intros like save. split.
  - destruct (toggleOutcome _ likes _ _ _) as [r|reason] eqn:E; subst like.
    + rewrite (handleLike_resolved _ _ _ _ _ E). done.
    + rewrite (handleLike_rejected _ _ _ _ _ E). done.
  - destruct (toggleOutcome _ saved_components _ _ _) as [r|reason] eqn:E; subst save.
    + rewrite (handleSave_resolved _ _ _ _ _ E). done.
    + rewrite (handleSave_rejected _ _ _ _ _ E). done.
Qed.

(** C1 as stated fails at both kinds of failing request.  When the
    insert rejects, the notice is shown but flag and counter keep their
    values; when it resolves with an error, flag and counter change but
    no notice is shown. *)
Lemma failed_like_no_notice_with_flip :
  let st := Sample.cardState false 5 in
  let req := toggleRequest likes Sample.alice Sample.c1 false in
  (fails Sample.rejecting req = true /\
   ~ notice_and_flip st
       (ComponentCard.handleLike Sample.rejecting (Some Sample.alice)
          (Sample.props Sample.c1) st)) /\
  (fails Sample.erroring req = true /\
   ~ notice_and_flip st
       (ComponentCard.handleLike Sample.erroring (Some Sample.alice)
          (Sample.props Sample.c1) st)).
Proof.
  repeat split; try reflexivity.
  - intros (_ & Hflag & _). vm_compute in Hflag. discriminate.
  - intros (Hnotice & _). vm_compute in Hnotice. congruence.
Qed.

(** C5.  From a not-liked card, a like click that turns the flag on
    followed by a like click that turns it off brings the likes counter
    back to its original value, with the liked flag false again.  The
    two clicks do toggle on and then off whenever their requests
    resolve. *)
Theorem like_on_then_off (c1 c2 : DataClient) (u : User.t)
    (props : ComponentCard.Props) (st : ComponentCard.State) :
  ComponentCard.isLiked st = false ->
  let on := state (ComponentCard.handleLike c1 (Some u) props st) in
  let off := state (ComponentCard.handleLike c2 (Some u) props on) in
  (forall r1 r2,
     join_insert c1 likes (User.id u) (Component.id (ComponentCard.component props))
       = Resolved r1 ->
     join_delete c2 likes (User.id u) (Component.id (ComponentCard.component props))
       = Resolved r2 ->
     ComponentCard.isLiked on = true /\ ComponentCard.isLiked off = false) /\
  (ComponentCard.isLiked on = true -> ComponentCard.isLiked off = false ->
   ComponentCard.likesCount off = ComponentCard.likesCount st /\
   ComponentCard.isLiked off = false).
Proof.
  intros Hclean on off.
  assert (Hon : ComponentCard.isLiked on = true ->
                ComponentCard.likesCount on = ComponentCard.likesCount st + 1).
  { subst on.
    destruct (toggleOutcome c1 likes u (ComponentCard.component props)
                (ComponentCard.isLiked st)) as [r|reason] eqn:E.
    - rewrite (handleLike_resolved _ _ _ _ _ E), Hclean. reflexivity.
    - rewrite (handleLike_rejected _ _ _ _ _ E). simpl. congruence. }
  assert (Hoff : ComponentCard.isLiked on = true -> ComponentCard.isLiked off = false ->
                 ComponentCard.likesCount off = ComponentCard.likesCount on - 1).
  { intros Hflag. subst off.
    destruct (toggleOutcome c2 likes u (ComponentCard.component props)
                (ComponentCard.isLiked on)) as [r|reason] eqn:E.
    - rewrite (handleLike_resolved _ _ _ _ _ E), Hflag. reflexivity.
    - rewrite (handleLike_rejected _ _ _ _ _ E). simpl. congruence. }
  split.
  - intros r1 r2 H1 H2.
    assert (Eon : ComponentCard.isLiked on = true).
    { subst on. rewrite (handleLike_resolved c1 u props st r1).
      - rewrite Hclean. reflexivity.
      - unfold toggleOutcome. rewrite Hclean. exact H1. }
    split; [exact Eon|].
    subst off. rewrite (handleLike_resolved c2 u props on r2).
    + rewrite Eon. reflexivity.
    + unfold toggleOutcome. rewrite Eon. exact H2.
  - intros Eon Eoff. split; [|exact Eoff].
    rewrite (Hoff Eon Eoff), (Hon Eon). lia.
Qed.

Lemma like_on_then_off_sample :
  let on := state (ComponentCard.handleLike Sample.healthy (Some Sample.alice)
                     (Sample.props Sample.c1) (Sample.cardState false 5)) in
  let off := state (ComponentCard.handleLike Sample.healthy (Some Sample.alice)
                      (Sample.props Sample.c1) on) in
  ComponentCard.likesCount on = 6 /\
  ComponentCard.likesCount off = 5 /\
  ComponentCard.isLiked off = false.
Proof.
  intros on off.
  destruct (like_on_then_off Sample.healthy Sample.healthy Sample.alice
              (Sample.props Sample.c1) (Sample.cardState false 5) eq_refl)
    as [Htoggles Hcount].
  destruct (Htoggles {| data := None; error := None |}
              {| data := None; error := None |} eq_refl eq_refl) as [Eon Eoff].
  split; [reflexivity|exact (Hcount Eon Eoff)].
Defined.

(** C6.  A like click by a viewer who is not signed in sends no
    request, shows the sign-in notice and leaves flag and counter as
    they were. *)
Theorem like_requires_sign_in (client : DataClient)
    (props : ComponentCard.Props) (st : ComponentCard.State) :
  let r := ComponentCard.handleLike client None props st in
  requests (trace r) = [] /\
  notices (trace r) = ["Please sign in to like components"] /\
  state r = st.
Proof. repeat split. Qed.

(** C10.  A like or save click by a signed-in user that turns the flag
    off lowers the local counter by exactly one, whatever its value:
    there is no clamping, and a counter at 0 becomes -1.  The click
    does turn the flag off whenever its delete request resolves. *)
Theorem toggle_off_decrements (client : DataClient) (u : User.t)
    (props : ComponentCard.Props) (st : ComponentCard.State) :
  let like := state (ComponentCard.handleLike client (Some u) props st) in
  let save := state (ComponentCard.handleSave client (Some u) props st) in
  (ComponentCard.isLiked st = true ->
   (forall r,
      join_delete client likes (User.id u)
        (Component.id (ComponentCard.component props)) = Resolved r ->
      ComponentCard.isLiked like = false) /\
   (ComponentCard.isLiked like = false ->
    ComponentCard.likesCount like = ComponentCard.likesCount st - 1 /\
    (ComponentCard.likesCount st = 0 -> ComponentCard.likesCount like = -1))) /\
  (ComponentCard.isSaved st = true ->
   (forall r,
      join_delete client saved_components (User.id u)
        (Component.id (ComponentCard.component props)) = Resolved r ->
      ComponentCard.isSaved save = false) /\
   (ComponentCard.isSaved save = false ->
    ComponentCard.savesCount save = ComponentCard.savesCount st - 1 /\
    (ComponentCard.savesCount st = 0 -> ComponentCard.savesCount save = -1))).
Proof.
  intros like save. split; intros Hflag.
  - subst like.
    destruct (toggleOutcome client likes u (ComponentCard.component props)
                (ComponentCard.isLiked st)) as [r|reason] eqn:E.
    + rewrite (handleLike_resolved _ _ _ _ _ E), Hflag. simpl.
      split; [reflexivity|]. intros _. lia.
    + rewrite (handleLike_rejected _ _ _ _ _ E). simpl.
      unfold toggleOutcome in E. rewrite Hflag in E.
      split; [intros r Hr|]; congruence.
  - subst save.
    destruct (toggleOutcome client saved_components u (ComponentCard.component props)
                (ComponentCard.isSaved st)) as [r|reason] eqn:E.
    + rewrite (handleSave_resolved _ _ _ _ _ E), Hflag. simpl.
      split; [reflexivity|]. intros _. lia.
    + rewrite (handleSave_rejected _ _ _ _ _ E). simpl.
      unfold toggleOutcome in E. rewrite Hflag in E.
      split; [intros r Hr|]; congruence.
Qed.

Lemma toggle_off_at_zero :
  ComponentCard.likesCount
    (state (ComponentCard.handleLike Sample.healthy (Some Sample.alice)
              (Sample.props Sample.c1) (Sample.cardState true 0))) = -1 /\
  ComponentCard.savesCount
    (state (ComponentCard.handleSave Sample.healthy (Some Sample.alice)
              (Sample.props Sample.c1) (Sample.cardState true 0))) = -1.
Proof.
  destruct (toggle_off_decrements Sample.healthy Sample.alice
              (Sample.props Sample.c1) (Sample.cardState true 0)) as [Hlike Hsave].
  destruct (Hlike eq_refl) as [Hoff Hcount].
  destruct (Hsave eq_refl) as [Hoff' Hcount'].
  split.
  - apply Hcount; [apply (Hoff {| data := None; error := None |})|]; reflexivity.
  - apply Hcount'; [apply (Hoff' {| data := None; error := None |})|]; reflexivity.
Defined.

(** ** Home: properties of the feed *)

Ltac home_step :=
  cbv [Home.fetchComponents Home.fetchSaved Home.fetchRegular
       Home.setLoading Home.setComponents];
  run_handler.

(** Annotating rows keeps a descending order when the annotation leaves
    the ordering column alone. *)
Lemma sorted_desc_map (key : Component.t -> option Z)
    (f : Component.t -> Component.t) (l : list Component.t) :
  (forall c, key (f c) = key c) ->
  sorted_desc key l -> sorted_desc key (map f l).
Proof.
  intros Hkey Hsorted. induction Hsorted as [|a l Hl IH Ha]; simpl.
  - constructor.
  - constructor; [exact IH|].
    apply Forall_forall. intros b' Hb'.
    apply list_elem_of_In, in_map_iff in Hb' as (b & <- & Hb).
    rewrite Forall_forall in Ha. intros x y Hx Hy.
    rewrite Hkey in Hx, Hy. exact (Ha b (proj2 (list_elem_of_In _ _) Hb) x y Hx Hy).
Qed.

(** C3.  A fetch in newest mode that stores a list stores it in
    descending order of creation time, and a fetch in trending mode in
    descending order of the like counter, provided the service honours
    the order clause of the query. *)
Theorem feed_order (client : DataClient) (user : option User.t) (st : Home.State) :
  honours_order client ->
  let r := Home.fetchComponents client user st in
  notices (trace r) = [] ->
  (Home.sortBy st = Home.newest ->
   sorted_desc Component.created_at (Home.components (state r))) /\
  (Home.sortBy st = Home.trending ->
   sorted_desc Component.likes_count (Home.components (state r))).
Proof.
  intros Hord r. subst r. destruct st as [prev ld term mode]. simpl.
  intros Hquiet.
  split; intros ->; revert Hquiet; home_step; simpl.
  all: destruct (components_select client _) as [[[rows|] [e|]]|?] eqn:Esel;
    simpl; try discriminate.
  all: try (pose proof (Hord _ _ _ Esel eq_refl) as Hrows; simpl in Hrows).
  all: destruct user as [u|]; simpl.
  all: try (intros _; first [exact Hrows | constructor]).
  all: destruct (0 <? Datatypes.length rows)%nat; simpl; [|intros _; exact Hrows].
  all: destruct (membership_select client likes _ _) as [lr|?]; simpl; [|discriminate].
  all: destruct (membership_select client saved_components _ _) as [sr|?]; simpl;
    [|discriminate].
  all: intros _; apply sorted_desc_map; [|exact Hrows].
  all: intros c'; reflexivity.
Qed.

Lemma sample_honours_order : honours_order Sample.healthy.
Proof.
  intros o r rows Hsel Hdata.
  destruct o; simpl in Hsel; injection Hsel as <-; injection Hdata as <-.
  all: repeat constructor; intros x y Hx Hy; simpl in Hx, Hy;
    injection Hx as <-; injection Hy as <-; lia.
Qed.

Lemma feed_order_sample :
  let r := Home.fetchComponents Sample.healthy (Some Sample.alice)
             (Sample.homeState Home.trending []) in
  sorted_desc Component.likes_count (Home.components (state r)).
Proof.
  refine (proj2 (feed_order Sample.healthy (Some Sample.alice)
                   (Sample.homeState Home.trending []) sample_honours_order _) _);
    reflexivity.
Defined.

(** C4, as amended.  After a fetch in saved mode by a signed-in viewer
    that stores a list, every component of the list has a saved-join
    row for that viewer and is marked as saved, provided the service
    honours the saved-mode query. *)
Theorem saved_feed_only_saved (saved_rows : list (string * string))
    (client : DataClient) (u : User.t) (st : Home.State) :
  honours_saved saved_rows client (User.id u) ->
  Home.sortBy st = Home.saved ->
  let r := Home.fetchComponents client (Some u) st in
  notices (trace r) = [] ->
  forall c, c ∈ Home.components (state r) ->
    (User.id u, Component.id c) ∈ saved_rows /\ Component.is_saved c = Some true.
Proof.
  intros Hsaved Hmode r. subst r. destruct st as [prev ld term mode].
  simpl in Hmode. subst mode. home_step; simpl.
  destruct (saved_select client _) as [[[items|] [e|]]|?] eqn:Esel;
    simpl; try discriminate.
  2: { intros _ c Hc. inversion Hc. }
  pose proof (fun item => Hsaved _ items item Esel eq_refl) as Hitems.
  destruct (0 <? Datatypes.length (map Home.savedComponent items))%nat; simpl.
  2: { intros _ c Hc. inversion Hc. }
  destruct (membership_select client likes _ _) as [lr|?]; simpl; [|discriminate].
  intros _ c Hc.
  apply list_elem_of_In, in_map_iff in Hc as (c' & <- & Hc').
  apply in_map_iff in Hc' as (item & <- & Hitem).
  apply list_elem_of_In in Hitem.
  destruct (Hitems item Hitem) as [Hrow Hid].
  simpl. rewrite Hid. split; [exact Hrow|reflexivity].
Qed.

Lemma sample_honours_saved :
  honours_saved Sample.saved_table Sample.healthy (User.id Sample.alice).
Proof.
  intros r items item Hsel Hdata Hitem.
  simpl in Hsel. injection Hsel as <-. injection Hdata as <-.
  apply list_elem_of_singleton in Hitem as ->.
  split; [apply list_elem_of_here|reflexivity].
Qed.

Lemma saved_feed_sample :
  Forall (fun c => ("alice", Component.id c) ∈ Sample.saved_table /\
                   Component.is_saved c = Some true)
    (Home.components
       (state (Home.fetchComponents Sample.healthy (Some Sample.alice)
                 (Sample.homeState Home.saved [])))).
Proof.
  apply Forall_forall.
  apply (saved_feed_only_saved Sample.saved_table Sample.healthy Sample.alice
           (Sample.homeState Home.saved []) sample_honours_saved); reflexivity.
Defined.

(** C4 as stated fails for a viewer who is not signed in: the saved
    branch asks for a user, so in saved mode such a viewer is served
    the regular feed.  The stored components carry no saved mark, and
    the first of them is referenced by no row of the saved-join table. *)
Lemma signed_out_saved_feed :
  let r := Home.fetchComponents Sample.healthy None (Sample.homeState Home.saved []) in
  notices (trace r) = [] /\
  Home.components (state r) = [Sample.c2; Sample.c1] /\
  map Component.is_saved (Home.components (state r)) = [None; None] /\
  map snd Sample.saved_table = ["c1"] /\
  Component.id Sample.c2 ∉ map snd Sample.saved_table.
Proof.
  repeat split. intros H. apply list_elem_of_singleton in H. discriminate.
Qed.

(** Closes a case in which every request sent has settled without the
    failure the hypothesis [H] asks for. *)
Ltac no_failure H :=
  let req := fresh "req" in
  let Hin := fresh "Hin" in
  let Hbad := fresh "Hbad" in
  destruct H as (req & Hin & Hbad); simpl in Hin;
  repeat (apply elem_of_cons in Hin as [->|Hin]);
  [..|inversion Hin];
  simpl in Hbad;
  repeat match goal with
    | E : _ = Resolved _ |- _ => rewrite E in Hbad; clear E
    end;
  simpl in Hbad; destruct Hbad as [Hbad|[Hbad Hbad']]; discriminate.

(** Either the run shows the failure notice and keeps the list, or no
    request it sent failed in the way [H] asks for. *)
Ltac fetch_case :=
  let H := fresh "H" in
  split; [reflexivity|split; [reflexivity|intros H]];
  first [split; reflexivity | no_failure H].

(** C2, as amended.  A feed fetch never throws and always clears the
    loading flag.  When a request it sends rejects, or when the query
    the feed is built from resolves with an error, the failure notice
    is shown and the components list is the one the fetch started
    from. *)
Theorem fetch_failure_reported (client : DataClient) (user : option User.t)
    (st : Home.State) :
  let r := Home.fetchComponents client user st in
  completion r = Normal tt /\
  Home.loading (state r) = false /\
  ((exists req, req ∈ requests (trace r) /\
      (rejects client req = true \/
       (is_feed_query req = true /\ reports_error client req = true))) ->
   notices (trace r) = ["Failed to load components"] /\
   Home.components (state r) = Home.components st).
Proof.
  intros r. subst r. destruct st as [prev ld term mode].
  destruct mode, user as [u|]; home_step; simpl.
  (* the saved branch is the fifth case *)
  5: { destruct (saved_select client _) as [[[items|] [e|]]|?] eqn:Esel; simpl;
         try fetch_case.
       destruct (0 <? Datatypes.length (map Home.savedComponent items))%nat; simpl;
         try fetch_case.
       destruct (membership_select client likes _ _) as [lr|?] eqn:Elikes; simpl;
         fetch_case. }
  all: destruct (components_select client _) as [[[rows|] [e|]]|?] eqn:Esel; simpl;
    try fetch_case.
  all: destruct (0 <? Datatypes.length rows)%nat; simpl; try fetch_case.
  all: destruct (membership_select client likes _ _) as [lr|?] eqn:Elikes; simpl;
    try fetch_case.
  all: destruct (membership_select client saved_components _ _) as [sr|?] eqn:Esaves;
    simpl; fetch_case.
Qed.

(** C2 as stated fails when a membership query resolves with an error:
    the likes query fails, no notice is shown, and the list is neither
    the previous one nor empty. *)
Lemma membership_error_unreported :
  let st := Sample.homeState Home.newest [Sample.c1] in
  let r := Home.fetchComponents Sample.likes_unavailable (Some Sample.alice) st in
  (exists req, req ∈ requests (trace r) /\ fails Sample.likes_unavailable req = true) /\
  notices (trace r) = [] /\
  Home.components (state r) ≠ Home.components st /\
  Home.components (state r) ≠ [].
Proof.
  split; [|repeat split; vm_compute; discriminate].
  exists (MembershipSelect likes "alice" ["c2"; "c1"]).
  split; [|reflexivity].
  vm_compute. apply list_elem_of_further, list_elem_of_here.
Qed.

Lemma fetch_failure_sample :
  let st := Sample.homeState Home.newest [Sample.c1] in
  let broken := Sample.client (Sample.ok None) Sample.saved_items
                  (fun _ => Sample.err "permission denied") Sample.members
                  (Sample.ok None) (Sample.ok None) in
  let r := Home.fetchComponents broken (Some Sample.alice) st in
  notices (trace r) = ["Failed to load components"] /\
  Home.components (state r) = [Sample.c1].
Proof.
  intros st broken r.
  apply (fetch_failure_reported broken (Some Sample.alice) st).
  exists (ComponentsSelect by_created_at).
  split; [apply list_elem_of_here|right; split; reflexivity].
Defined.

(** ** Publish: properties of the submission *)

Ltac publish_step :=
  cbv [Publish.handleSubmit Publish.uploadPreview Publish.setLoading];
  run_handler.

Lemma truthy_trim_blank (s : string) : Js.trim s = "" -> Js.truthy (Js.trim s) = false.
Proof. intros ->. reflexivity. Qed.

Lemma truthy_trim_filled (s : string) : Js.trim s ≠ "" -> Js.truthy (Js.trim s) = true.
Proof. destruct (Js.trim s); [done|reflexivity]. Qed.

(** C7.  A submission whose title or code is empty after trimming sends
    no request, so no component row is inserted, and leaves the form as
    it is; for the signed-in author it shows the notice that asks for
    the required fields. *)
Theorem submit_rejects_blank (client : DataClient) (user : option User.t)
    (random : string) (st : Publish.State) :
  Js.trim (Publish.title (Publish.formData st)) = "" \/
  Js.trim (Publish.code (Publish.formData st)) = "" ->
  let r := Publish.handleSubmit client user random st in
  requests (trace r) = [] /\
  state r = st /\
  (is_Some user -> notices (trace r) = ["Please fill in all required fields"]).
Proof.
  intros Hblank r. subst r. publish_step.
  destruct user as [u|]; simpl.
  - assert (Hguard :
      negb (Js.truthy (Js.trim (Publish.title (Publish.formData st))))
      || negb (Js.truthy (Js.trim (Publish.code (Publish.formData st)))) = true).
    { destruct Hblank as [H|H]; rewrite (truthy_trim_blank _ H); simpl;
        [reflexivity|apply orb_true_r]. }
    rewrite Hguard. simpl. done.
  - repeat split. intros [u Hu]. discriminate.
Qed.

Lemma submit_blank_title_sample :
  let st := Sample.publishState "  " "<button/>" (Some Sample.shot) in
  let r := Publish.handleSubmit Sample.healthy (Some Sample.alice) "0.42" st in
  requests (trace r) = [] /\ state r = st /\
  notices (trace r) = ["Please fill in all required fields"].
Proof.
  intros st r.
  destruct (submit_rejects_blank Sample.healthy (Some Sample.alice) "0.42" st
              (or_introl eq_refl)) as (Hreq & Hst & Hnotice).
  split; [exact Hreq|split; [exact Hst|apply Hnotice; eexists; reflexivity]].
Defined.

(** Membership of an event in an explicit trace, by cases. *)
Ltac trace_cases H :=
  simpl in H;
  repeat (apply elem_of_cons in H as [H|H]; [try discriminate H|]);
  try (inversion H; fail).

(** Closes [published client tr -> _] on a run whose insert, if any,
    did not resolve cleanly. *)
Ltac not_published H :=
  let row := fresh "row" in
  let res := fresh "res" in
  let Hin := fresh "Hin" in
  let Hres := fresh "Hres" in
  let Herr := fresh "Herr" in
  destruct H as (row & res & Hin & Hres & Herr);
  trace_cases Hin;
  try (injection Hin as ->;
       match goal with
       | E : components_insert _ _ = _ |- _ =>
           tryif constr_eq E Hres then fail else rewrite E in Hres
       end;
       first [discriminate Hres | injection Hres as <-; discriminate Herr]).

(** One settled run of the submission: either the insert resolved
    cleanly, and the run ends with the success message and the
    navigation, or it did not, and the run shows one error notice. *)
Ltac submit_case :=
  let Hp := fresh "Hp" in
  let Hn := fresh "Hn" in
  let Hin := fresh "Hin" in
  split; [reflexivity|split; [reflexivity|split; [intros Hp|intros Hn]]];
  [ first
      [ solve [not_published Hp]
      | split; [|reflexivity];
        repeat (first [apply list_elem_of_here | apply list_elem_of_further]) ]
  | first
      [ solve [split; [eexists; reflexivity|intros path Hin; trace_cases Hin]]
      | exfalso; apply Hn; eexists _, _;
        (split; [|split; [eassumption|reflexivity]]);
        repeat (first [apply list_elem_of_here | apply list_elem_of_further]) ] ].

(** C8.  A submission by the signed-in author never changes the form
    fields or the selected image.  When the insert was sent and
    resolved without an error, the success message is shown and the
    user is taken to the feed; otherwise exactly one error notice is
    shown and there is no navigation. *)
Theorem submit_outcome (client : DataClient) (u : User.t) (random : string)
    (st : Publish.State) :
  let r := Publish.handleSubmit client (Some u) random st in
  Publish.formData (state r) = Publish.formData st /\
  Publish.previewImage (state r) = Publish.previewImage st /\
  (published client (trace r) ->
   EvNavigate "/" ∈ trace r /\ notices (trace r) = []) /\
  (~ published client (trace r) ->
   (exists msg, notices (trace r) = [msg]) /\
   forall path, EvNavigate path ∉ trace r).
Proof.
  intros r. subst r. publish_step. simpl.
  destruct (negb _ || negb _); simpl; [submit_case|].
  destruct (Publish.previewImage st) as [file|]; simpl.
  - destruct (storage_upload client _ _ _) as [[d [e|]]|?]; simpl;
      try (destruct (components_insert client _) as [[d' [e'|]]|?] eqn:Eins; simpl);
      submit_case.
  - destruct (components_insert client _) as [[d' [e'|]]|?] eqn:Eins; simpl;
      submit_case.
Qed.

Lemma submit_outcome_sample :
  let st := Sample.publishState "Button" "<button/>" None in
  let refused := Sample.client (Sample.ok None) Sample.saved_items Sample.feed
                   Sample.members (Sample.ok None) (Sample.err "row too large") in
  let good := Publish.handleSubmit Sample.healthy (Some Sample.alice) "0.42" st in
  let bad := Publish.handleSubmit refused (Some Sample.alice) "0.42" st in
  (EvNavigate "/" ∈ trace good /\ notices (trace good) = []) /\
  ((exists msg, notices (trace bad) = [msg]) /\
   (forall path, EvNavigate path ∉ trace bad) /\
   Publish.formData (state bad) = Publish.formData st).
Proof.
  intros st refused good bad. split.
  - apply (submit_outcome Sample.healthy Sample.alice "0.42" st).
    exists (Publish.newRow Sample.alice (Publish.formData st) None),
           {| data := None; error := None |}.
    split; [|split; reflexivity].
    apply list_elem_of_further, list_elem_of_here.
  - destruct (submit_outcome refused Sample.alice "0.42" st)
      as (Hform & _ & _ & Hfail).
    destruct Hfail as [Hmsg Hnav].
    + intros (row & res & _ & Hres & Herr).
      simpl in Hres. injection Hres as <-. discriminate Herr.
    + split; [exact Hmsg|split; [exact Hnav|exact Hform]].
Defined.

(** C9, as amended.  A submission by the signed-in author with valid
    fields and a selected image whose upload resolves with an error is
    not aborted: the error is written to the console only, the
    component row is still inserted with a null preview image
    reference, and the notices are exactly those of the same submission
    with no image selected, so none when the insert succeeds.  When the
    upload call rejects instead, the submission stops there: no row is
    inserted and the publish-failure notice is shown. *)
Theorem upload_error_keeps_publishing (client : DataClient) (u : User.t)
    (random : string) (st : Publish.State) (file : File.t) :
  Publish.previewImage st = Some file ->
  Js.trim (Publish.title (Publish.formData st)) ≠ "" ->
  Js.trim (Publish.code (Publish.formData st)) ≠ "" ->
  let upload := StorageUpload "component-previews" (Publish.previewPath random file) file in
  let r := Publish.handleSubmit client (Some u) random st in
  let row := Publish.newRow u (Publish.formData st) None in
  let plain := Publish.handleSubmit client (Some u) random
                 {| Publish.formData := Publish.formData st;
                    Publish.previewImage := None;
                    Publish.loading := Publish.loading st |} in
  (forall res e,
     storage_upload client "component-previews" (Publish.previewPath random file) file
       = Resolved res ->
     error res = Some e ->
     requests (trace r) = [upload; ComponentsInsert row] /\
     NewComponent.preview_image_url row = None /\
     EvConsoleError "Upload error:" e ∈ trace r /\
     notices (trace r) = notices (trace plain) /\
     (published client (trace r) -> notices (trace r) = [])) /\
  (forall reason,
     storage_upload client "component-previews" (Publish.previewPath random file) file
       = Rejected reason ->
     requests (trace r) = [upload] /\
     notices (trace r) = ["Failed to publish component"]).
Proof.
  intros Himage Htitle Hcode upload r row plain.
  subst upload r row plain. publish_step. simpl.
  rewrite (truthy_trim_filled _ Htitle), (truthy_trim_filled _ Hcode). simpl.
  rewrite Himage. simpl. split.
  - intros res e Hupload Herr. rewrite Hupload. simpl.
    destruct res as [d err]. simpl in Herr. subst err. simpl.
    destruct (components_insert client _) as [[d' [e'|]]|?] eqn:Eins; simpl.
    all: split; [reflexivity|split; [reflexivity|split; [|split; [reflexivity|]]]].
    all: try (apply list_elem_of_further, list_elem_of_further, list_elem_of_here).
    all: intros Hp; first [reflexivity | not_published Hp].
  - intros reason Hupload. rewrite Hupload. simpl. split; reflexivity.
Qed.

Lemma upload_error_sample :
  let st := Sample.publishState " Button " "<button/>" (Some Sample.shot) in
  let r := Publish.handleSubmit Sample.upload_refused (Some Sample.alice) "0.42" st in
  requests (trace r) =
    [StorageUpload "component-previews" "previews/0.42.png" Sample.shot;
     ComponentsInsert
       {| NewComponent.user_id := "alice"; NewComponent.title := "Button";
          NewComponent.description := None; NewComponent.code := "<button/>";
          NewComponent.tags := ["ui"]; NewComponent.preview_image_url := None |}] /\
  notices (trace r) = [].
Proof.
  intros st r.
  assert (Htitle : Js.trim (Publish.title (Publish.formData st)) ≠ "") by discriminate.
  assert (Hcode : Js.trim (Publish.code (Publish.formData st)) ≠ "") by discriminate.
  destruct (upload_error_keeps_publishing Sample.upload_refused Sample.alice "0.42" st
              Sample.shot eq_refl Htitle Hcode) as [Herror _].
  destruct (Herror {| data := None; error := Some "payload too large" |}
              "payload too large" eq_refl eq_refl) as (Hreq & _ & _ & Hsame & _).
  split; [exact Hreq|exact Hsame].
Defined.

(** C9 as stated fails when the upload call rejects: the upload has
    failed, yet no component row is inserted and an error notice is
    shown. *)
Lemma rejected_upload_aborts :
  let st := Sample.publishState " Button " "<button/>" (Some Sample.shot) in
  let r := Publish.handleSubmit Sample.upload_unreachable (Some Sample.alice) "0.42" st in
  fails Sample.upload_unreachable
    (StorageUpload "component-previews" "previews/0.42.png" Sample.shot) = true /\
  requests (trace r) =
    [StorageUpload "component-previews" "previews/0.42.png" Sample.shot] /\
  notices (trace r) = ["Failed to publish component"].
Proof. repeat split. Qed.

(** ** Strings: facts the page logic relies on *)

Lemma trimStart_head (s : string) (c : ascii) (t : string) :
  Js.trimStart s = String c t -> Js.is_white_space c = false.
Proof.
  induction s as [|a s IH]; simpl; [discriminate|].
  destruct (Js.is_white_space a) eqn:Ea; [exact IH|].
  intros [= <- <-]. exact Ea.
Qed.

Lemma trimEnd_idempotent (s : string) : Js.trimEnd (Js.trimEnd s) = Js.trimEnd s.
Proof.
  induction s as [|a s IH]; simpl; [reflexivity|].
  destruct (Js.trimEnd s) as [|b t] eqn:E.
  - destruct (Js.is_white_space a) eqn:Ea; simpl; [reflexivity|].
    rewrite Ea. reflexivity.
  - simpl in IH |- *. destruct (Js.trimEnd t) as [|b' t'] eqn:Et.
    + destruct (Js.is_white_space b) eqn:Eb; [discriminate IH|].
      injection IH as <-. reflexivity.
    + rewrite IH. reflexivity.
Qed.

Lemma trimEnd_head (s : string) (c : ascii) (t : string) :
  Js.is_white_space c = false ->
  exists t', Js.trimEnd (String c t) = String c t'.
Proof.
  intros Hc. simpl. destruct (Js.trimEnd t); [rewrite Hc|]; eauto.
Qed.

Lemma trimStart_trim (s : string) : Js.trimStart (Js.trim s) = Js.trim s.
Proof.
  unfold Js.trim. destruct (Js.trimStart s) as [|c t] eqn:E; [reflexivity|].
  pose proof (trimStart_head _ _ _ E) as Hc.
  destruct (trimEnd_head t c t Hc) as [t' ->]. simpl. rewrite Hc. reflexivity.
Qed.

Lemma trim_idempotent (s : string) : Js.trim (Js.trim s) = Js.trim s.
Proof.
  unfold Js.trim at 1. rewrite trimStart_trim. unfold Js.trim.
  apply trimEnd_idempotent.
Qed.

Lemma truthy_nonempty (s : string) : Js.truthy s = true <-> s ≠ "".
Proof. destruct s; simpl; split; congruence. Qed.

Lemma toLowerCaseChar_idempotent (c : ascii) :
  Js.toLowerCaseChar (Js.toLowerCaseChar c) = Js.toLowerCaseChar c.
Proof. destruct c as [[] [] [] [] [] [] [] []]; reflexivity. Qed.

Lemma toLowerCase_idempotent (s : string) :
  Js.toLowerCase (Js.toLowerCase s) = Js.toLowerCase s.
Proof.
  induction s as [|c s IH]; simpl; [reflexivity|].
  rewrite toLowerCaseChar_idempotent, IH. reflexivity.
Qed.

Lemma startsWith_spec (s p : string) :
  Js.startsWith s p = true <-> exists b, s = p ++ b.
Proof.
  revert s. induction p as [|a p IH]; intros s; simpl.
  - split; [intros _; exists s; reflexivity|intros _; destruct s; reflexivity].
  - destruct s as [|c s]; simpl.
    + split; [discriminate|]. intros [b Hb]. discriminate.
    + rewrite andb_true_iff, IH. split.
      * intros [Hac [b ->]]. apply Ascii.eqb_eq in Hac as ->. eauto.
      * intros [b [= -> ->]]. split; [apply Ascii.eqb_refl|eauto].
Qed.

Lemma includes_spec (s sub : string) :
  Js.includes s sub = true <-> exists a b, s = a ++ sub ++ b.
Proof.
  induction s as [|c s IH]; cbn [Js.includes].
  - rewrite orb_false_r, startsWith_spec. split.
    + intros [b Hb]. exists "", b. exact Hb.
    + intros (a & b & H). destruct a; simpl in H; [eauto|discriminate].
  - rewrite orb_true_iff, startsWith_spec, IH. split.
    + intros [[b Hb]|(a & b & ->)].
      * exists "", b. exact Hb.
      * exists (String c a), b. reflexivity.
    + intros (a & b & H). destruct a as [|c' a]; simpl in H.
      * left. eauto.
      * injection H as -> ->. right. eauto.
Qed.

(** ** Home: the client-side filter *)

Lemma includes_empty (s : string) : Js.includes s "" = true.
Proof. apply includes_spec. exists "", s. reflexivity. Qed.

Lemma string_app_nil_r (s : string) : s ++ "" = s.
Proof.
  induction s as [|c s IH]; [reflexivity|].
  change (String c (s ++ "") = String c s). rewrite IH. reflexivity.
Qed.

Lemma includes_refl (s : string) : Js.includes s s = true.
Proof.
  apply includes_spec. exists "", "".
  change (s = s ++ ""). rewrite string_app_nil_r. reflexivity.
Qed.

Lemma string_app_assoc (a b c : string) : (a ++ b) ++ c = a ++ (b ++ c).
Proof.
  induction a as [|x a IH]; [reflexivity|].
  change (String x ((a ++ b) ++ c) = String x (a ++ (b ++ c))).
  rewrite IH. reflexivity.
Qed.

Lemma includes_trans (x t s : string) :
  Js.includes x t = true -> Js.includes t s = true -> Js.includes x s = true.
Proof.
  rewrite !includes_spec. intros (a & b & ->) (a' & b' & ->).
  exists (a ++ a'), (b' ++ b).
  rewrite !string_app_assoc. reflexivity.
Qed.

Lemma filter_all (A : Type) (p : A -> bool) (l : list A) :
  (forall x, p x = true) -> List.filter p l = l.
Proof.
  intros Hp. induction l as [|x l IH]; simpl; [reflexivity|].
  rewrite Hp, IH. reflexivity.
Qed.

Lemma filter_sublist (A : Type) (p : A -> bool) (l : list A) :
  sublist (List.filter p l) l.
Proof.
  induction l as [|x l IH]; simpl; [constructor|].
  destruct (p x); constructor; exact IH.
Qed.

Lemma filter_sublist_narrow (A : Type) (p q : A -> bool) (l : list A) :
  (forall x, p x = true -> q x = true) ->
  sublist (List.filter p l) (List.filter q l).
Proof.
  intros Hpq. induction l as [|x l IH]; simpl; [constructor|].
  destruct (p x) eqn:Ep.
  - rewrite (Hpq _ Ep). constructor. exact IH.
  - destruct (q x); [constructor|]; exact IH.
Qed.

Lemma sorted_desc_sublist (key : Component.t -> option Z) (l k : list Component.t) :
  sublist l k -> sorted_desc key k -> sorted_desc key l.
Proof.
  intros Hsub. induction Hsub as [|x l k Hsub IH|x l k Hsub IH]; intros Hk.
  - constructor.
  - apply StronglySorted_inv in Hk as [Hk Hx]. constructor; [exact (IH Hk)|].
    rewrite Forall_forall in Hx |- *. intros y Hy.
    apply Hx. exact (elem_of_sublist _ _ _ Hy Hsub).
  - apply StronglySorted_inv in Hk as [Hk _]. exact (IH Hk).
Qed.

(** X1.  A component passes the filter exactly when the search term
    occurs, letter case aside, in its title, in its description when it
    has one, or in one of its tags when it has a tag list. *)
Theorem matchesSearch_occurs (term : string) (c : Component.t) :
  Home.matchesSearch term c = true <->
  occurs_in term (Component.title c) \/
  (exists d, Component.description c = Some d /\ occurs_in term d) \/
  (exists ts tag, Component.tags c = Some ts /\ tag ∈ ts /\ occurs_in term tag).
Proof.
  unfold Home.matchesSearch, occurs_in.
  rewrite !orb_true_iff, includes_spec. split.
  - intros [[Ht|Hd]|Hts].
    + left. exact Ht.
    + right. left. destruct (Component.description c) as [d|]; [|discriminate].
      exists d. split; [reflexivity|]. apply includes_spec. exact Hd.
    + right. right. destruct (Component.tags c) as [ts|]; [|discriminate].
      apply existsb_exists in Hts as (tag & Hin & Htag).
      exists ts, tag. split; [reflexivity|].
      split; [apply list_elem_of_In; exact Hin|apply includes_spec; exact Htag].
  - intros [Ht|[(d & -> & Hd)|(ts & tag & -> & Hin & Htag)]].
    + left. left. exact Ht.
    + left. right. apply includes_spec. exact Hd.
    + right. apply existsb_exists. exists tag.
      split; [apply list_elem_of_In; exact Hin|apply includes_spec; exact Htag].
Qed.

Lemma matchesSearch_occurs_sample :
  Home.matchesSearch "UI" Sample.c1 = true.
Proof.
  apply (proj2 (matchesSearch_occurs "UI" Sample.c1)).
  right. right. exists ["ui"], "ui".
  split; [reflexivity|]. split; [apply list_elem_of_here|].
  exists "", "". reflexivity.
Defined.

(** X2.  With an empty search box every component of the feed is shown. *)
Theorem empty_search_shows_all (st : Home.State) :
  Home.searchTerm st = "" ->
  Home.filteredComponents st = Home.components st.
Proof.
  intros Hterm. unfold Home.filteredComponents. rewrite Hterm.
  apply filter_all. intros c. unfold Home.matchesSearch. simpl.
  rewrite includes_empty. reflexivity.
Qed.

Lemma empty_search_sample :
  Home.filteredComponents (Sample.homeState Home.newest [Sample.c2; Sample.c1])
  = [Sample.c2; Sample.c1].
Proof.
  exact (empty_search_shows_all
           (Sample.homeState Home.newest [Sample.c2; Sample.c1]) eq_refl).
Defined.

(** X3.  The search ignores the letter case of the term: lower-casing
    the term changes nothing.  So a component is always found by its
    own title, by its own description and by each of its own tags,
    typed in full as stored or in lower case. *)
Theorem search_ignores_case (term : string) (c : Component.t) :
  Home.matchesSearch (Js.toLowerCase term) c = Home.matchesSearch term c /\
  (Home.matchesSearch (Component.title c) c = true /\
   Home.matchesSearch (Js.toLowerCase (Component.title c)) c = true) /\
  (forall d, Component.description c = Some d ->
     Home.matchesSearch d c = true /\
     Home.matchesSearch (Js.toLowerCase d) c = true) /\
  (forall ts tag, Component.tags c = Some ts -> tag ∈ ts ->
     Home.matchesSearch tag c = true /\
     Home.matchesSearch (Js.toLowerCase tag) c = true).
Proof.
  assert (Hlower : forall t, Home.matchesSearch (Js.toLowerCase t) c
                             = Home.matchesSearch t c).
  { intros t. unfold Home.matchesSearch. rewrite toLowerCase_idempotent. reflexivity. }
  split; [apply Hlower|]. split; [|split].
  - rewrite Hlower. split; unfold Home.matchesSearch; rewrite includes_refl; reflexivity.
  - intros d Hd. rewrite Hlower. split; unfold Home.matchesSearch;
      rewrite Hd, includes_refl, orb_true_r; reflexivity.
  - intros ts tag Hts Hin. rewrite Hlower.
    assert (Hsome : existsb (fun x => Js.includes (Js.toLowerCase x) (Js.toLowerCase tag)) ts
                    = true).
    { apply existsb_exists. exists tag.
      split; [apply list_elem_of_In; exact Hin|apply includes_refl]. }
    split; unfold Home.matchesSearch; rewrite Hts, Hsome, orb_true_r; reflexivity.
Qed.

Lemma search_ignores_case_sample :
  Home.matchesSearch "ui" Sample.c1 = true /\
  Home.matchesSearch "BUTTON" Sample.c1 = Home.matchesSearch "button" Sample.c1.
Proof.
  destruct (search_ignores_case "BUTTON" Sample.c1) as (Hlower & _ & _ & Htags).
  split.
  - exact (proj1 (Htags ["ui"] "ui" eq_refl (list_elem_of_here _ _))).
  - rewrite <- Hlower. reflexivity.
Defined.

(** X4.  A search term whose lower-cased form contains the lower-cased
    form of another term never shows a card that the other term hides:
    the list it shows is a sub-list, in the same order, of the list the
    other shows. *)
Theorem containing_term_narrows (st : Home.State) (v w : string) :
  Js.includes (Js.toLowerCase w) (Js.toLowerCase v) = true ->
  let wide := state (Home.setSearchTerm v st) in
  let narrow := state (Home.setSearchTerm w st) in
  sublist (Home.filteredComponents narrow) (Home.filteredComponents wide).
Proof.
  intros Hvw wide narrow. subst wide narrow. unfold Home.filteredComponents. simpl.
  apply filter_sublist_narrow. intros c.
  assert (Hincl : forall x,
            Js.includes x (Js.toLowerCase w) = true ->
            Js.includes x (Js.toLowerCase v) = true).
  { intros x Hx. exact (includes_trans _ _ _ Hx Hvw). }
  unfold Home.matchesSearch. rewrite !orb_true_iff.
  intros [[Ht|Hd]|Hts].
  - left. left. apply Hincl. exact Ht.
  - left. right. destruct (Component.description c); [apply Hincl; exact Hd|discriminate].
  - right. destruct (Component.tags c) as [ts|]; [|discriminate].
    apply existsb_exists in Hts as (tag & Hin & Htag).
    apply existsb_exists. exists tag. split; [exact Hin|apply Hincl; exact Htag].
Qed.

Lemma containing_term_sample :
  let st := Sample.homeState Home.newest [Sample.c2; Sample.c1] in
  sublist (Home.filteredComponents (state (Home.setSearchTerm "Butto" st)))
          (Home.filteredComponents (state (Home.setSearchTerm "but" st))).
Proof.
  intros st. apply (containing_term_narrows st "but" "Butto"). reflexivity.
Defined.

(** X5.  Filtering never reorders the feed: whatever is typed into the
    search box, the cards shown are a sub-list of the components list
    in the same order, so a list in descending order of a column stays
    in that order. *)
Theorem filter_keeps_order (st : Home.State) (v : string)
    (key : Component.t -> option Z) :
  let shown := Home.filteredComponents (state (Home.setSearchTerm v st)) in
  sublist shown (Home.components st) /\
  (sorted_desc key (Home.components st) -> sorted_desc key shown).
Proof.
  intros shown.
  assert (Hsub : sublist shown (Home.components st)).
  { subst shown. unfold Home.filteredComponents. simpl. apply filter_sublist. }
  split; [exact Hsub|]. apply sorted_desc_sublist. exact Hsub.
Qed.

Lemma filter_keeps_order_sample :
  sorted_desc Component.likes_count
    (Home.filteredComponents
       (state (Home.setSearchTerm "butt"
                 (Sample.homeState Home.trending [Sample.c2; Sample.c1])))).
Proof.
  apply (filter_keeps_order (Sample.homeState Home.trending [Sample.c2; Sample.c1])
           "butt" Component.likes_count).
  repeat constructor; intros x y [= <-] [= <-]; lia.
Defined.

(** ** Home: what a fetch sends and stores *)

Lemma Forall2_map_self (A B : Type) (P : A -> B -> Prop) (f : A -> B) (l : list A) :
  (forall x, P x (f x)) -> Forall2 P l (map f l).
Proof. intros HP. induction l; simpl; constructor; auto. Qed.

Lemma membership_elem (r : Response (list MemberRow.t)) (x : string) :
  bool_decide (x ∈ Home.membership (data r)) = true <-> x ∈ returned_ids r.
Proof.
  rewrite bool_decide_eq_true. unfold Home.membership, returned_ids.
  apply elem_of_list_to_set.
Qed.

Lemma nonempty_length (A : Type) (l : list A) :
  l ≠ [] -> (0 <? List.length l)%nat = true.
Proof. destruct l; [done|reflexivity]. Qed.

(** What every fetch does, whatever the service answers. *)
Lemma fetch_settles (client : DataClient) (user : option User.t) (st : Home.State) :
  let r := Home.fetchComponents client user st in
  completion r = Normal tt /\
  Home.loading (state r) = false /\
  Home.searchTerm (state r) = Home.searchTerm st /\
  Home.sortBy (state r) = Home.sortBy st /\
  Forall (fun req => is_select req = true) (requests (trace r)) /\
  (List.length (requests (trace r)) <= 3)%nat /\
  (exists q rest, requests (trace r) = q :: rest /\ is_feed_query q = true).
Proof.
  intros r. subst r. destruct st as [prev ld term mode].
  destruct mode, user as [u|]; home_step; simpl.
  5: { destruct (saved_select client _) as [[[items|] [e|]]|?]; simpl;
         try (repeat split; try (repeat constructor; fail); try lia; eauto; fail).
       destruct (0 <? Datatypes.length (map Home.savedComponent items))%nat; simpl;
         try (repeat split; try (repeat constructor; fail); try lia; eauto; fail).
       destruct (membership_select client likes _ _) as [lr|?]; simpl;
         repeat split; try (repeat constructor; fail); try lia; eauto. }
  all: destruct (components_select client _) as [[[rows|] [e|]]|?]; simpl;
    try (repeat split; try (repeat constructor; fail); try lia; eauto; fail).
  all: destruct (0 <? Datatypes.length rows)%nat; simpl;
    try (repeat split; try (repeat constructor; fail); try lia; eauto; fail).
  all: destruct (membership_select client likes _ _) as [lr|?]; simpl;
    try (repeat split; try (repeat constructor; fail); try lia; eauto; fail).
  all: destruct (membership_select client saved_components _ _) as [sr|?]; simpl;
    repeat split; try (repeat constructor; fail); try lia; eauto.
Qed.

(** X6.  A fetch only reads: every request it sends is a select, there
    are at most three, and the first is the query the feed is built
    from.  It never throws, and it leaves the search term and the sort
    mode alone. *)
Theorem fetch_read_only (client : DataClient) (user : option User.t) (st : Home.State) :
  let r := Home.fetchComponents client user st in
  completion r = Normal tt /\
  Forall (fun req => is_select req = true) (requests (trace r)) /\
  (List.length (requests (trace r)) <= 3)%nat /\
  (exists q rest, requests (trace r) = q :: rest /\ is_feed_query q = true) /\
  Home.searchTerm (state r) = Home.searchTerm st /\
  Home.sortBy (state r) = Home.sortBy st.
Proof.
  intros r. destruct (fetch_settles client user st) as (H1 & _ & H3 & H4 & H5 & H6 & H7).
  repeat split; assumption.
Qed.

(** X7.  Once a fetch has settled the page never shows the loading
    placeholders: it shows the empty message or a grid, and a grid
    always holds at least one card, each of them a component of the
    list that matches the search term. *)
Theorem view_after_fetch (client : DataClient) (user : option User.t) (st : Home.State) :
  let st' := state (Home.fetchComponents client user st) in
  (forall n, Home.view st' ≠ Home.Skeleton n) /\
  (forall cards, Home.view st' = Home.Grid cards ->
     cards ≠ [] /\
     forall c, c ∈ cards ->
       c ∈ Home.components st' /\ Home.matchesSearch (Home.searchTerm st') c = true).
Proof.
  intros st'. destruct (fetch_settles client user st) as (_ & Hload & _).
  fold st' in Hload. clearbody st'. unfold Home.view. rewrite Hload.
  destruct (Home.filteredComponents st') as [|c0 l] eqn:E; simpl.
  - split; [intros n; destruct (Home.sortBy st'); done|].
    intros cards. destruct (Home.sortBy st'); done.
  - split; [done|]. intros cards [= <-]. split; [done|].
    intros c Hc. rewrite <- E in Hc. unfold Home.filteredComponents in Hc.
    apply list_elem_of_In, filter_In in Hc as [Hin Hmatch].
    split; [apply list_elem_of_In; exact Hin|exact Hmatch].
Qed.

Lemma view_after_fetch_sample :
  let st' := state (Home.fetchComponents Sample.healthy None
                      (Sample.homeState Home.newest [])) in
  [Sample.c2; Sample.c1] ≠ [] /\
  forall c, c ∈ [Sample.c2; Sample.c1] ->
    c ∈ Home.components st' /\ Home.matchesSearch (Home.searchTerm st') c = true.
Proof.
  intros st'.
  exact (proj2 (view_after_fetch Sample.healthy None (Sample.homeState Home.newest []))
           [Sample.c2; Sample.c1] eq_refl).
Defined.

(** X8.  A regular fetch by a signed-in viewer whose three queries
    resolve, the first without error and with at least one row, sends
    exactly those three queries, the membership ones restricted to the
    viewer and to the ids fetched, and stores the fetched rows in their
    order, each with its liked (saved) flag set to whether a like
    (saved) row was returned for its id. *)
Theorem feed_annotation (client : DataClient) (u : User.t) (st : Home.State)
    (rows : list Component.t) (res : Response (list Component.t))
    (lr sr : Response (list MemberRow.t)) :
  let order := match Home.sortBy st with
               | Home.trending => by_likes_count
               | _ => by_created_at
               end in
  let ids := map Component.id rows in
  let r := Home.fetchComponents client (Some u) st in
  Home.sortBy st ≠ Home.saved ->
  components_select client order = Resolved res ->
  error res = None -> data res = Some rows -> rows ≠ [] ->
  membership_select client likes (User.id u) ids = Resolved lr ->
  membership_select client saved_components (User.id u) ids = Resolved sr ->
  requests (trace r) =
    [ComponentsSelect order;
     MembershipSelect likes (User.id u) ids;
     MembershipSelect saved_components (User.id u) ids] /\
  Forall2 (annotated (returned_ids lr) (returned_ids sr)) rows
    (Home.components (state r)).
Proof.
  intros order ids r Hmode Hsel Herr Hdata Hrows Hlikes Hsaves.
  subst order ids r. destruct st as [prev ld term mode]. simpl in *.
  destruct res as [d e]. simpl in *. subst d e.
  destruct mode; try done; home_step; simpl.
  all: rewrite Hsel; simpl; rewrite (nonempty_length _ _ Hrows); simpl.
  all: rewrite Hlikes, Hsaves; simpl.
  all: split; [reflexivity|].
  all: apply Forall2_map_self; intros row.
  all: exists (bool_decide (Component.id row ∈ Home.membership (data lr))),
              (bool_decide (Component.id row ∈ Home.membership (data sr))).
  all: split; [reflexivity|split; apply membership_elem].
Qed.

Lemma feed_annotation_sample :
  Forall2 (annotated ["c2"] ["c1"]) [Sample.c2; Sample.c1]
    (Home.components
       (state (Home.fetchComponents Sample.healthy (Some Sample.alice)
                 (Sample.homeState Home.newest [])))).
Proof.
  refine (proj2 (feed_annotation Sample.healthy Sample.alice
                   (Sample.homeState Home.newest []) [Sample.c2; Sample.c1]
                   {| data := Some [Sample.c2; Sample.c1]; error := None |}
                   {| data := Some [ {| MemberRow.component_id := "c2" |} ]; error := None |}
                   {| data := Some [ {| MemberRow.component_id := "c1" |} ]; error := None |}
                   _ eq_refl eq_refl eq_refl _ eq_refl eq_refl)); discriminate.
Defined.

(** X9.  A saved-mode fetch by a signed-in viewer whose two queries
    resolve, the first without error and with at least one item, sends
    the saved query for the viewer and one likes query restricted to
    the viewer and to the ids of the embedded components, and stores
    the embedded components in the order of the items, each marked as
    saved and with its liked flag set to whether a like row was
    returned for its id. *)
Theorem saved_annotation (client : DataClient) (u : User.t) (st : Home.State)
    (items : list SavedItem.t) (res : Response (list SavedItem.t))
    (lr : Response (list MemberRow.t)) :
  let ids := map (fun item => Component.id (SavedItem.components item)) items in
  let r := Home.fetchComponents client (Some u) st in
  Home.sortBy st = Home.saved ->
  saved_select client (User.id u) = Resolved res ->
  error res = None -> data res = Some items -> items ≠ [] ->
  membership_select client likes (User.id u) ids = Resolved lr ->
  requests (trace r) =
    [SavedSelect (User.id u); MembershipSelect likes (User.id u) ids] /\
  Forall2 (annotated_saved (returned_ids lr)) items (Home.components (state r)).
Proof.
  intros ids r Hmode Hsel Herr Hdata Hitems Hlikes.
  subst ids r. destruct st as [prev ld term mode]. simpl in *. subst mode.
  destruct res as [d e]. simpl in *. subst d e.
  assert (Hids : map Component.id (map Home.savedComponent items)
                 = map (fun item => Component.id (SavedItem.components item)) items).
  { rewrite map_map. reflexivity. }
  home_step; simpl. rewrite Hsel; simpl.
  rewrite (nonempty_length _ (map Home.savedComponent items)); simpl.
  2: { destruct items; [done|discriminate]. }
  rewrite Hids, Hlikes; simpl. split; [reflexivity|].
  rewrite map_map. apply Forall2_map_self. intros item.
  exists (bool_decide (Component.id (Home.savedComponent item)
                         ∈ Home.membership (data lr))).
  split; [reflexivity|]. apply (membership_elem lr).
Qed.

Lemma saved_annotation_sample :
  Forall2 (annotated_saved [])
    [ {| SavedItem.component_id := "c1"; SavedItem.components := Sample.c1 |} ]
    (Home.components
       (state (Home.fetchComponents Sample.likes_unavailable (Some Sample.alice)
                 (Sample.homeState Home.saved [])))).
Proof.
  refine (proj2 (saved_annotation Sample.likes_unavailable Sample.alice
                   (Sample.homeState Home.saved [])
                   [ {| SavedItem.component_id := "c1"; SavedItem.components := Sample.c1 |} ]
                   {| data := Some [ {| SavedItem.component_id := "c1";
                                        SavedItem.components := Sample.c1 |} ];
                      error := None |}
                   {| data := None; error := Some "timeout" |}
                   eq_refl eq_refl eq_refl eq_refl _ eq_refl)); discriminate.
Defined.

(** X10.  For a viewer who is not signed in a fetch sends the
    components query and nothing else; when it resolves without error
    the rows are stored exactly as returned, with no flags added.  The
    saved mode has no branch of its own for such a viewer: it fetches
    what the newest mode fetches. *)
Theorem anonymous_fetch (client : DataClient) (st : Home.State) :
  let order := match Home.sortBy st with
               | Home.trending => by_likes_count
               | _ => by_created_at
               end in
  let r := Home.fetchComponents client None st in
  requests (trace r) = [ComponentsSelect order] /\
  (forall res, components_select client order = Resolved res -> error res = None ->
     notices (trace r) = [] /\
     Home.components (state r) = default [] (data res)) /\
  (Home.sortBy st = Home.saved ->
   let r' := Home.fetchComponents client None (state (Home.setSortBy Home.newest st)) in
   trace r = trace r' /\ Home.components (state r) = Home.components (state r')).
Proof.
  intros order r. subst order r. destruct st as [prev ld term mode].
  destruct mode; home_step; simpl.
  all: destruct (components_select client _) as [[d [e|]]|?] eqn:Esel; simpl.
  all: split; [reflexivity|split].
  all: try (intros res [= <-]; simpl; try discriminate; intros _; split; reflexivity).
  all: try discriminate.
  all: intros _; rewrite ?Esel; simpl; split; reflexivity.
Qed.

Lemma anonymous_fetch_sample :
  let r := Home.fetchComponents Sample.healthy None (Sample.homeState Home.saved []) in
  requests (trace r) = [ComponentsSelect by_created_at] /\
  Home.components (state r) = [Sample.c2; Sample.c1].
Proof.
  intros r.
  destruct (anonymous_fetch Sample.healthy (Sample.homeState Home.saved []))
    as (Hreq & Hstored & _).
  split; [exact Hreq|].
  exact (proj2 (Hstored {| data := Some [Sample.c2; Sample.c1]; error := None |}
                  eq_refl eq_refl)).
Defined.



(** ** ComponentCard: further properties of the toggles *)

(** X12.  A save click by a viewer who is not signed in sends no
    request, shows the sign-in notice for saving and leaves flag and
    counter as they were. *)
Theorem save_requires_sign_in (client : DataClient)
    (props : ComponentCard.Props) (st : ComponentCard.State) :
  let r := ComponentCard.handleSave client None props st in
  requests (trace r) = [] /\
  notices (trace r) = ["Please sign in to save components"] /\
  state r = st.
Proof. repeat split. Qed.

(** X13.  From a not-saved card, a save click that turns the flag on
    followed by a save click that turns it off brings the saves counter
    back to its original value; the two clicks do toggle on and then
    off whenever their requests resolve. *)
Theorem save_on_then_off (c1 c2 : DataClient) (u : User.t)
    (props : ComponentCard.Props) (st : ComponentCard.State) :
  ComponentCard.isSaved st = false ->
  let on := state (ComponentCard.handleSave c1 (Some u) props st) in
  let off := state (ComponentCard.handleSave c2 (Some u) props on) in
  (forall r1 r2,
     join_insert c1 saved_components (User.id u)
       (Component.id (ComponentCard.component props)) = Resolved r1 ->
     join_delete c2 saved_components (User.id u)
       (Component.id (ComponentCard.component props)) = Resolved r2 ->
     ComponentCard.isSaved on = true /\ ComponentCard.isSaved off = false) /\
  (ComponentCard.isSaved on = true -> ComponentCard.isSaved off = false ->
   ComponentCard.savesCount off = ComponentCard.savesCount st).
Proof.
  intros Hclean on off.
  assert (Hon : ComponentCard.isSaved on = true ->
                ComponentCard.savesCount on = ComponentCard.savesCount st + 1).
  { subst on.
    destruct (toggleOutcome c1 saved_components u (ComponentCard.component props)
                (ComponentCard.isSaved st)) as [r|reason] eqn:E.
    - rewrite (handleSave_resolved _ _ _ _ _ E), Hclean. reflexivity.
    - rewrite (handleSave_rejected _ _ _ _ _ E). simpl. congruence. }
  assert (Hoff : ComponentCard.isSaved on = true -> ComponentCard.isSaved off = false ->
                 ComponentCard.savesCount off = ComponentCard.savesCount on - 1).
  { intros Hflag. subst off.
    destruct (toggleOutcome c2 saved_components u (ComponentCard.component props)
                (ComponentCard.isSaved on)) as [r|reason] eqn:E.
    - rewrite (handleSave_resolved _ _ _ _ _ E), Hflag. reflexivity.
    - rewrite (handleSave_rejected _ _ _ _ _ E). simpl. congruence. }
  split.
  - intros r1 r2 H1 H2.
    assert (Eon : ComponentCard.isSaved on = true).
    { subst on. rewrite (handleSave_resolved c1 u props st r1).
      - rewrite Hclean. reflexivity.
      - unfold toggleOutcome. rewrite Hclean. exact H1. }
    split; [exact Eon|].
    subst off. rewrite (handleSave_resolved c2 u props on r2).
    + rewrite Eon. reflexivity.
    + unfold toggleOutcome. rewrite Eon. exact H2.
  - intros Eon Eoff. rewrite (Hoff Eon Eoff), (Hon Eon). lia.
Qed.

Lemma save_on_then_off_sample :
  let on := state (ComponentCard.handleSave Sample.healthy (Some Sample.alice)
                     (Sample.props Sample.c1) (Sample.cardState false 3)) in
  let off := state (ComponentCard.handleSave Sample.healthy (Some Sample.alice)
                      (Sample.props Sample.c1) on) in
  ComponentCard.savesCount on = 4 /\ ComponentCard.savesCount off = 3.
Proof.
  intros on off.
  destruct (save_on_then_off Sample.healthy Sample.healthy Sample.alice
              (Sample.props Sample.c1) (Sample.cardState false 3) eq_refl)
    as [Htoggles Hcount].
  destruct (Htoggles {| data := None; error := None |}
              {| data := None; error := None |} eq_refl eq_refl) as [Eon Eoff].
  split; [reflexivity|exact (Hcount Eon Eoff)].
Defined.

(** X14.  A click by a signed-in viewer sends exactly one request,
    whatever becomes of it: a delete when the flag is on, an insert
    when it is off, on the table of that button and keyed by the
    viewer and the component.  A like click never changes the saved
    flag or the saves counter, and a save click never changes the
    liked flag or the likes counter. *)
Theorem toggle_sends_one_request (client : DataClient) (u : User.t)
    (props : ComponentCard.Props) (st : ComponentCard.State) :
  let like := ComponentCard.handleLike client (Some u) props st in
  let save := ComponentCard.handleSave client (Some u) props st in
  (requests (trace like) =
     [toggleRequest likes u (ComponentCard.component props) (ComponentCard.isLiked st)] /\
   ComponentCard.isSaved (state like) = ComponentCard.isSaved st /\
   ComponentCard.savesCount (state like) = ComponentCard.savesCount st) /\
  (requests (trace save) =
     [toggleRequest saved_components u (ComponentCard.component props)
        (ComponentCard.isSaved st)] /\
   ComponentCard.isLiked (state save) = ComponentCard.isLiked st /\
   ComponentCard.likesCount (state save) = ComponentCard.likesCount st).
Proof.
  intros like save. subst like save. unfold toggleRequest. split; card_step.
  - destruct (ComponentCard.isLiked st); simpl.
    + destruct (join_delete client likes _ _); simpl;
        [destruct (ComponentCard.onLike props) as [[e|]|]|]; repeat split.
    + destruct (join_insert client likes _ _); simpl;
        [destruct (ComponentCard.onLike props) as [[e|]|]|]; repeat split.
  - destruct (ComponentCard.isSaved st); simpl.
    + destruct (join_delete client saved_components _ _); simpl;
        [destruct (ComponentCard.onSave props) as [[e|]|]|]; repeat split.
    + destruct (join_insert client saved_components _ _); simpl;
        [destruct (ComponentCard.onSave props) as [[e|]|]|]; repeat split.
Qed.

(** X15.  The refresh callback of a like click is called exactly when
    it was supplied and the request of a signed-in viewer resolved,
    and then once; a rejected request or a signed-out viewer never
    reaches it.  The same holds for the save click and its callback. *)
Theorem refresh_callback (client : DataClient) (u : User.t)
    (props : ComponentCard.Props) (st : ComponentCard.State) :
  callbacks (trace (ComponentCard.handleLike client (Some u) props st)) =
    (if bool_decide (is_Some (ComponentCard.onLike props))
        && resolves (toggleOutcome client likes u (ComponentCard.component props)
                       (ComponentCard.isLiked st))
     then ["onLike"] else []) /\
  callbacks (trace (ComponentCard.handleSave client (Some u) props st)) =
    (if bool_decide (is_Some (ComponentCard.onSave props))
        && resolves (toggleOutcome client saved_components u
                       (ComponentCard.component props) (ComponentCard.isSaved st))
     then ["onSave"] else []) /\
  callbacks (trace (ComponentCard.handleLike client None props st)) = [] /\
  callbacks (trace (ComponentCard.handleSave client None props st)) = [].
Proof.
  unfold toggleOutcome. split; [|split; [|split; reflexivity]]; card_step.
  - destruct (ComponentCard.isLiked st); simpl.
    + destruct (join_delete client likes _ _); simpl;
        destruct (ComponentCard.onLike props) as [[e|]|]; reflexivity.
    + destruct (join_insert client likes _ _); simpl;
        destruct (ComponentCard.onLike props) as [[e|]|]; reflexivity.
  - destruct (ComponentCard.isSaved st); simpl.
    + destruct (join_delete client saved_components _ _); simpl;
        destruct (ComponentCard.onSave props) as [[e|]|]; reflexivity.
    + destruct (join_insert client saved_components _ _); simpl;
        destruct (ComponentCard.onSave props) as [[e|]|]; reflexivity.
Qed.

(** X16.  The click handlers never throw.  A callback that throws is
    caught like a failed request: the failure notice is shown, although
    the request went through and the flag and counter were updated. *)
Theorem toggles_never_throw (client : DataClient) (user : option User.t)
    (props : ComponentCard.Props) (st : ComponentCard.State) :
  let like := ComponentCard.handleLike client user props st in
  let save := ComponentCard.handleSave client user props st in
  completion like = Normal tt /\
  completion save = Normal tt /\
  (forall u res e,
     user = Some u ->
     toggleOutcome client likes u (ComponentCard.component props)
       (ComponentCard.isLiked st) = Resolved res ->
     ComponentCard.onLike props = Some (Some e) ->
     notices (trace like) = ["Failed to update like"] /\
     ComponentCard.isLiked (state like) = negb (ComponentCard.isLiked st)) /\
  (forall u res e,
     user = Some u ->
     toggleOutcome client saved_components u (ComponentCard.component props)
       (ComponentCard.isSaved st) = Resolved res ->
     ComponentCard.onSave props = Some (Some e) ->
     notices (trace save) = ["Failed to update save"] /\
     ComponentCard.isSaved (state save) = negb (ComponentCard.isSaved st)).
Proof.
  intros like save. subst like save. unfold toggleOutcome.
  split; [|split; [|split]]; card_step.
  - destruct user as [u|]; [|reflexivity].
    destruct (ComponentCard.isLiked st); simpl.
    + destruct (join_delete client likes _ _); simpl;
        [destruct (ComponentCard.onLike props) as [[e|]|]|]; reflexivity.
    + destruct (join_insert client likes _ _); simpl;
        [destruct (ComponentCard.onLike props) as [[e|]|]|]; reflexivity.
  - destruct user as [u|]; [|reflexivity].
    destruct (ComponentCard.isSaved st); simpl.
    + destruct (join_delete client saved_components _ _); simpl;
        [destruct (ComponentCard.onSave props) as [[e|]|]|]; reflexivity.
    + destruct (join_insert client saved_components _ _); simpl;
        [destruct (ComponentCard.onSave props) as [[e|]|]|]; reflexivity.
  - intros u res e -> Hres Hcb. rewrite Hcb.
    destruct (ComponentCard.isLiked st); rewrite Hres; simpl; split; reflexivity.
  - intros u res e -> Hres Hcb. rewrite Hcb.
    destruct (ComponentCard.isSaved st); rewrite Hres; simpl; split; reflexivity.
Qed.

Lemma throwing_callback_sample :
  let props := {| ComponentCard.component := Sample.c1;
                  ComponentCard.onLike := Some (Some "refresh failed");
                  ComponentCard.onSave := None |} in
  let like := ComponentCard.handleLike Sample.healthy (Some Sample.alice) props
                (Sample.cardState false 5) in
  notices (trace like) = ["Failed to update like"] /\
  ComponentCard.isLiked (state like) = true.
Proof.
  intros props like.
  exact (proj1 (proj2 (proj2 (toggles_never_throw Sample.healthy (Some Sample.alice)
                                props (Sample.cardState false 5))))
           Sample.alice {| data := None; error := None |} "refresh failed"
           eq_refl eq_refl eq_refl).
Defined.

(** X17.  A card mounted on a stored feed entry starts from what the
    feed computed: liked (saved) exactly when a like (saved) row was
    returned for the row, and with the row's counters, a null counter
    counting as 0.  A row that carries no flags starts not liked and
    not saved. *)
Theorem card_initial_state (liked saved : list string) (row c : Component.t) :
  (annotated liked saved row c ->
   (ComponentCard.isLiked (ComponentCard.initialState c) = true
      <-> Component.id row ∈ liked) /\
   (ComponentCard.isSaved (ComponentCard.initialState c) = true
      <-> Component.id row ∈ saved) /\
   ComponentCard.likesCount (ComponentCard.initialState c)
     = default 0 (Component.likes_count row) /\
   ComponentCard.savesCount (ComponentCard.initialState c)
     = default 0 (Component.saves_count row)) /\
  (Component.is_liked row = None -> Component.is_saved row = None ->
   ComponentCard.isLiked (ComponentCard.initialState row) = false /\
   ComponentCard.isSaved (ComponentCard.initialState row) = false).
Proof.
  split.
  - intros (l & s & -> & Hl & Hs). simpl. repeat split; try apply Hl; try apply Hs.
  - intros Hl Hs. unfold ComponentCard.initialState. rewrite Hl, Hs. split; reflexivity.
Qed.

Lemma card_initial_state_sample :
  let c := Component.set_is_saved false (Component.set_is_liked true Sample.c2) in
  ComponentCard.isLiked (ComponentCard.initialState c) = true /\
  ComponentCard.likesCount (ComponentCard.initialState c) = 9.
Proof.
  intros c.
  destruct (proj1 (card_initial_state ["c2"] ["c1"] Sample.c2 c)) as (Hl & _ & Hn & _).
  - exists true, false. split; [reflexivity|].
    split; split; try done.
    + intros _. apply list_elem_of_here.
    + intros H. apply list_elem_of_singleton in H. discriminate.
  - split; [apply Hl, list_elem_of_here|exact Hn].
Defined.

(** X18.  The author line of a card is never blank: it is the profile's
    name when there is one and it is not empty, and Anonymous when the
    profile or the name is missing or the name is empty. *)
Theorem author_never_blank (c : Component.t) :
  ComponentCard.authorName c ≠ "" /\
  (forall p n, Component.profiles c = Some p -> Profile.full_name p = Some n ->
     n ≠ "" -> ComponentCard.authorName c = n) /\
  (Component.profiles c = None -> ComponentCard.authorName c = "Anonymous") /\
  (forall p, Component.profiles c = Some p ->
     Profile.full_name p = None \/ Profile.full_name p = Some "" ->
     ComponentCard.authorName c = "Anonymous").
Proof.
  unfold ComponentCard.authorName. repeat split.
  - destruct (Component.profiles c) as [p|]; [|done].
    destruct (Profile.full_name p) as [[|a n]|]; done.
  - intros p n -> -> Hn. destruct n; [done|reflexivity].
  - intros ->. reflexivity.
  - intros p -> [->| ->]; reflexivity.
Qed.

Lemma author_sample :
  ComponentCard.authorName
    (Component.set_profiles
       (Some {| Profile.id := "bob"; Profile.full_name := Some "Bob";
                Profile.avatar_url := None |}) Sample.c1) = "Bob".
Proof.
  refine (proj1 (proj2 (author_never_blank
                          (Component.set_profiles
                             (Some {| Profile.id := "bob"; Profile.full_name := Some "Bob";
                                      Profile.avatar_url := None |}) Sample.c1)))
            {| Profile.id := "bob"; Profile.full_name := Some "Bob";
               Profile.avatar_url := None |} "Bob" eq_refl eq_refl _).
  discriminate.
Defined.

(** ** Publish: the tag list *)

Ltac tag_step :=
  cbv [Publish.handleTagAdd Publish.handleTagRemove Publish.setFormData
       Publish.setPreviewImage Publish.changeTitle Publish.changeDescription
       Publish.changeCode Publish.changeTagInput Publish.changeFiles
       Publish.handleEvent];
  run_handler.

Lemma arrayIncludes_elem (l : list string) (x : string) :
  Js.arrayIncludes l x = true <-> x ∈ l.
Proof.
  unfold Js.arrayIncludes. rewrite existsb_exists. split.
  - intros (y & Hin & Heq). apply String.eqb_eq in Heq as ->.
    apply list_elem_of_In. exact Hin.
  - intros Hin. exists x. split; [apply list_elem_of_In; exact Hin|apply String.eqb_refl].
Qed.

Lemma arrayIncludes_not_elem (l : list string) (x : string) :
  Js.arrayIncludes l x = false <-> x ∉ l.
Proof.
  rewrite <- arrayIncludes_elem. destruct (Js.arrayIncludes l x); split; congruence.
Qed.

Lemma remove_elem (t x : string) (l : list string) :
  x ∈ List.filter (fun tag => negb (String.eqb tag t)) l <-> x ∈ l /\ x ≠ t.
Proof.
  rewrite !list_elem_of_In, filter_In, negb_true_iff, String.eqb_neq. reflexivity.
Qed.

Lemma remove_absent (t : string) (l : list string) :
  t ∉ l -> List.filter (fun tag => negb (String.eqb tag t)) l = l.
Proof.
  induction l as [|x l IH]; simpl; [reflexivity|].
  intros Hnot. apply not_elem_of_cons in Hnot as [Hne Hnot].
  destruct (String.eqb x t) eqn:E.
  - apply String.eqb_eq in E. congruence.
  - simpl. rewrite (IH Hnot). reflexivity.
Qed.

(** The form after Add was pressed with a new tag in the box. *)
Lemma tag_add_step (st : Publish.State) :
  let fd := Publish.formData st in
  let tag := Js.trim (Publish.tagInput fd) in
  tag ≠ "" -> tag ∉ Publish.tags fd ->
  state (Publish.handleTagAdd st) =
    {| Publish.formData :=
         {| Publish.title := Publish.title fd;
            Publish.description := Publish.description fd;
            Publish.code := Publish.code fd;
            Publish.tags := Publish.tags fd ++ [tag];
            Publish.tagInput := "" |};
       Publish.previewImage := Publish.previewImage st;
       Publish.loading := Publish.loading st |}.
Proof.
  intros fd tag Hne Hnew. tag_step. fold fd. fold tag.
  apply truthy_nonempty in Hne. apply arrayIncludes_not_elem in Hnew.
  rewrite Hne, Hnew. reflexivity.
Qed.

(** X19.  Pressing Add with a tag that is new appends it, trimmed, at
    the end of the tag list and empties the tag box; every other field
    of the form, the selected image and the loading flag are kept, and
    nothing is sent or shown. *)
Theorem tag_add_new (st : Publish.State) :
  let fd := Publish.formData st in
  let tag := Js.trim (Publish.tagInput fd) in
  let r := Publish.handleTagAdd st in
  tag ≠ "" -> tag ∉ Publish.tags fd ->
  r = {| completion := Normal tt;
         state := {| Publish.formData :=
                       {| Publish.title := Publish.title fd;
                          Publish.description := Publish.description fd;
                          Publish.code := Publish.code fd;
                          Publish.tags := Publish.tags fd ++ [tag];
                          Publish.tagInput := "" |};
                     Publish.previewImage := Publish.previewImage st;
                     Publish.loading := Publish.loading st |};
         trace := [] |}.
Proof.
  intros fd tag r Hne Hnew. subst r. tag_step. fold fd. fold tag.
  apply truthy_nonempty in Hne. apply arrayIncludes_not_elem in Hnew.
  rewrite Hne, Hnew. reflexivity.
Qed.

Lemma tag_add_new_sample :
  Publish.tags
    (Publish.formData
       (state (Publish.handleTagAdd
                 (state (Publish.changeTagInput "  glass " Publish.initialState)))))
  = ["glass"].
Proof.
  rewrite (tag_add_new (state (Publish.changeTagInput "  glass " Publish.initialState)));
    [reflexivity|discriminate|apply not_elem_of_nil].
Defined.

(** Add pressed with nothing new in the box leaves the run empty. *)
Lemma tag_add_skip (st : Publish.State) :
  let tag := Js.trim (Publish.tagInput (Publish.formData st)) in
  (tag = "") \/ (tag ∈ Publish.tags (Publish.formData st)) ->
  Publish.handleTagAdd st = {| completion := Normal tt; state := st; trace := [] |}.
Proof.
  intros tag H. tag_step. fold tag.
  destruct H as [->|Hin]; [reflexivity|].
  apply arrayIncludes_elem in Hin. rewrite Hin, andb_false_r. reflexivity.
Qed.

(** X20.  Pressing Add with a blank tag box, or with a tag that is
    already in the list, changes nothing at all: the list is kept and
    the text in the tag box stays where it is. *)
Theorem tag_add_noop (st : Publish.State) :
  let fd := Publish.formData st in
  let tag := Js.trim (Publish.tagInput fd) in
  (tag = "") \/ (tag ∈ Publish.tags fd) ->
  Publish.handleTagAdd st = {| completion := Normal tt; state := st; trace := [] |}.
Proof.
  intros fd tag H. tag_step. fold fd. fold tag.
  destruct H as [->|Hin]; [reflexivity|].
  apply arrayIncludes_elem in Hin. rewrite Hin, andb_false_r. reflexivity.
Qed.

Lemma tag_add_noop_sample :
  let st := Sample.publishState "Button" "<button/>" None in
  state (Publish.handleTagAdd (state (Publish.changeTagInput " ui" st)))
  = state (Publish.changeTagInput " ui" st).
Proof.
  intros st.
  rewrite (tag_add_noop (state (Publish.changeTagInput " ui" st))); [reflexivity|].
  right. apply list_elem_of_here.
Defined.

(** X21.  Removing a tag deletes every occurrence of it and nothing
    else: the other tags stay, in their order, and so do the tag box
    and the other fields.  Removing a tag that is not in the list
    changes nothing. *)
Theorem tag_remove (t : string) (st : Publish.State) :
  let st' := state (Publish.handleTagRemove t st) in
  let tags' := Publish.tags (Publish.formData st') in
  (t ∉ tags') /\
  (forall x, x ≠ t -> (x ∈ tags' <-> x ∈ Publish.tags (Publish.formData st))) /\
  sublist tags' (Publish.tags (Publish.formData st)) /\
  Publish.tagInput (Publish.formData st') = Publish.tagInput (Publish.formData st) /\
  (t ∉ Publish.tags (Publish.formData st) -> st' = st).
Proof.
  intros st' tags'. subst tags' st'. tag_step. simpl. repeat split.
  - rewrite remove_elem. tauto.
  - rewrite remove_elem. tauto.
  - rewrite remove_elem. tauto.
  - apply filter_sublist.
  - intros Hnot. rewrite (remove_absent _ _ Hnot).
    destruct st as [[] ? ?]. reflexivity.
Qed.

Lemma tag_remove_sample :
  let st := Sample.publishState "Button" "<button/>" None in
  state (Publish.handleTagRemove "glass" st) = st.
Proof.
  intros st. apply (tag_remove "glass" st).
  intros H. apply list_elem_of_singleton in H. discriminate.
Defined.

(** X22.  Adding a new tag and then removing it gives back the tag
    list the form had before. *)
Theorem tag_add_then_remove (st : Publish.State) :
  let tag := Js.trim (Publish.tagInput (Publish.formData st)) in
  tag ≠ "" -> tag ∉ Publish.tags (Publish.formData st) ->
  Publish.tags
    (Publish.formData (state (Publish.handleTagRemove tag (state (Publish.handleTagAdd st)))))
  = Publish.tags (Publish.formData st).
Proof.
  intros tag Hne Hnew.
  rewrite (tag_add_step st Hne Hnew). tag_step. simpl.
  rewrite List.filter_app. simpl. rewrite String.eqb_refl. simpl.
  rewrite app_nil_r. apply remove_absent. exact Hnew.
Qed.

Lemma tag_add_then_remove_sample :
  let st := state (Publish.changeTagInput "glass"
                     (Sample.publishState "Button" "<button/>" None)) in
  Publish.tags
    (Publish.formData
       (state (Publish.handleTagRemove "glass" (state (Publish.handleTagAdd st)))))
  = ["ui"].
Proof.
  intros st. apply (tag_add_then_remove st); [discriminate|].
  intros H. apply list_elem_of_singleton in H. discriminate.
Defined.

Lemma trim_clean (s : string) : Js.trim s ≠ "" -> clean_tag (Js.trim s).
Proof. intros Hne. split; [exact Hne|apply trim_idempotent]. Qed.

(** Every event of the form keeps the tag list duplicate-free and
    clean, and leaves the loading flag alone. *)
Lemma handleEvent_keeps_tags (ev : Publish.FormEvent) (st : Publish.State) :
  NoDup (Publish.tags (Publish.formData st)) ->
  Forall clean_tag (Publish.tags (Publish.formData st)) ->
  let st' := state (Publish.handleEvent ev st) in
  NoDup (Publish.tags (Publish.formData st')) /\
  Forall clean_tag (Publish.tags (Publish.formData st')) /\
  Publish.loading st' = Publish.loading st.
Proof.
  intros Hnodup Hclean st'. subst st'. destruct ev; try (tag_step; simpl; done).
  - (* Add *)
    set (tag := Js.trim (Publish.tagInput (Publish.formData st))).
    destruct (decide (tag = "")) as [Hblank|Hne].
    { unfold Publish.handleEvent. rewrite tag_add_skip; [done|left; exact Hblank]. }
    destruct (decide (tag ∈ Publish.tags (Publish.formData st))) as [Hin|Hnew].
    { unfold Publish.handleEvent. rewrite tag_add_skip; [done|right; exact Hin]. }
    unfold Publish.handleEvent. rewrite (tag_add_step st Hne Hnew). simpl.
    split; [|split; [|reflexivity]].
    + apply NoDup_app. split; [exact Hnodup|]. split; [|apply NoDup_singleton].
      intros x Hx Hx'. apply list_elem_of_singleton in Hx'. subst x. exact (Hnew Hx).
    + apply Forall_app. split; [exact Hclean|].
      constructor; [exact (trim_clean _ Hne)|constructor].
  - (* Remove *)
    tag_step. simpl. split; [|split; [|reflexivity]].
    + exact (sublist_NoDup _ _ Hnodup (filter_sublist _ _ _)).
    + rewrite Forall_forall in Hclean |- *. intros x Hx.
      apply Hclean. apply remove_elem in Hx. tauto.
Qed.

Lemma edited_keeps_tags (evs : list Publish.FormEvent) (st : Publish.State) :
  NoDup (Publish.tags (Publish.formData st)) ->
  Forall clean_tag (Publish.tags (Publish.formData st)) ->
  NoDup (Publish.tags (Publish.formData (Publish.edited evs st))) /\
  Forall clean_tag (Publish.tags (Publish.formData (Publish.edited evs st))) /\
  Publish.loading (Publish.edited evs st) = Publish.loading st.
Proof.
  revert st. induction evs as [|ev evs IH]; intros st Hnodup Hclean; simpl; [done|].
  destruct (handleEvent_keeps_tags ev st Hnodup Hclean) as (H1 & H2 & H3).
  destruct (IH _ H1 H2) as (H4 & H5 & H6).
  unfold Publish.edited in *. simpl. rewrite <- H3. done.
Qed.

(** The insert request of a submission, if there is one, carries the
    row built from the form with some preview reference. *)
Lemma submitted_row (client : DataClient) (user : option User.t) (random : string)
    (st : Publish.State) (row : NewComponent.t) :
  ComponentsInsert row ∈ requests (trace (Publish.handleSubmit client user random st)) ->
  exists u url,
    user = Some u /\
    Js.trim (Publish.title (Publish.formData st)) ≠ "" /\
    Js.trim (Publish.code (Publish.formData st)) ≠ "" /\
    row = Publish.newRow u (Publish.formData st) url.
Proof.
  publish_step. simpl. destruct user as [u|]; simpl; [|intros H; inversion H].
  destruct (Js.trim (Publish.title (Publish.formData st))) as [|a t] eqn:Et; simpl;
    [intros H; inversion H|].
  destruct (Js.trim (Publish.code (Publish.formData st))) as [|b c] eqn:Ec; simpl;
    [intros H; inversion H|].
  assert (Hshape : forall url (H : ComponentsInsert row ∈
                      [ComponentsInsert (Publish.newRow u (Publish.formData st) url)]),
            exists u' url', Some u = Some u' /\ String a t ≠ "" /\ String b c ≠ "" /\
                            row = Publish.newRow u' (Publish.formData st) url').
  { intros url H. apply list_elem_of_singleton in H. injection H as ->.
    exists u, url. done. }
  destruct (Publish.previewImage st) as [file|]; simpl.
  - destruct (storage_upload client _ _ _) as [[d [e|]]|?]; simpl;
      try (destruct (components_insert client _) as [[d' [e'|]]|?]; simpl);
      intros H; apply elem_of_cons in H as [H|H]; try discriminate H;
      try (inversion H; fail); eapply Hshape; exact H.
  - destruct (components_insert client _) as [[d' [e'|]]|?]; simpl;
      intros H; eapply Hshape; exact H.
Qed.

(** X23.  Whatever the user does to the form, starting from the empty
    form, the tag list never holds a duplicate, an empty tag or a tag
    with surrounding white space; and so neither does the tag list of
    a row that a submission then inserts. *)
Theorem tags_stay_clean (evs : list Publish.FormEvent) :
  let st := Publish.edited evs Publish.initialState in
  NoDup (Publish.tags (Publish.formData st)) /\
  Forall clean_tag (Publish.tags (Publish.formData st)) /\
  (forall client user random row,
     ComponentsInsert row ∈ requests (trace (Publish.handleSubmit client user random st)) ->
     NoDup (NewComponent.tags row) /\ Forall clean_tag (NewComponent.tags row)).
Proof.
  intros st.
  destruct (edited_keeps_tags evs Publish.initialState) as (Hnodup & Hclean & _);
    [apply NoDup_nil_2|constructor|].
  fold st in Hnodup, Hclean. split; [exact Hnodup|split; [exact Hclean|]].
  intros client user random row Hrow.
  destruct (submitted_row _ _ _ _ _ Hrow) as (u & url & _ & _ & _ & ->).
  simpl. split; assumption.
Qed.

Lemma tags_stay_clean_sample :
  let evs := [Publish.TitleTyped "Card"; Publish.CodeTyped "<div/>";
              Publish.TagInputTyped " glass "; Publish.TagAddPressed;
              Publish.TagInputTyped "glass"; Publish.TagAddPressed;
              Publish.TagInputTyped "  "; Publish.TagAddPressed] in
  let row := {| NewComponent.user_id := "alice"; NewComponent.title := "Card";
                NewComponent.description := None; NewComponent.code := "<div/>";
                NewComponent.tags := ["glass"]; NewComponent.preview_image_url := None |} in
  NoDup (NewComponent.tags row).
Proof.
  intros evs row.
  refine (proj1 (proj2 (proj2 (tags_stay_clean evs))
                   Sample.healthy (Some Sample.alice) "0.42" row _)).
  vm_compute. apply list_elem_of_here.
Defined.

(** ** Publish: what a submission sends *)

(** X24.  A submission never inserts a malformed row.  The row of an
    insert request belongs to the signed-in author, its title and code
    are the trimmed form fields and are not empty, its description is
    null exactly when the trimmed description is empty and is the
    trimmed description otherwise, and its tags are the form's tags. *)
Theorem inserted_row_well_formed (client : DataClient) (user : option User.t)
    (random : string) (st : Publish.State) (row : NewComponent.t) :
  ComponentsInsert row ∈ requests (trace (Publish.handleSubmit client user random st)) ->
  let fd := Publish.formData st in
  (exists u, user = Some u /\ NewComponent.user_id row = User.id u) /\
  (NewComponent.title row = Js.trim (Publish.title fd) /\ NewComponent.title row ≠ "") /\
  (NewComponent.code row = Js.trim (Publish.code fd) /\ NewComponent.code row ≠ "") /\
  (NewComponent.description row =
     if decide (Js.trim (Publish.description fd) = "") then None
     else Some (Js.trim (Publish.description fd))) /\
  NewComponent.tags row = Publish.tags fd.
Proof.
  intros Hrow fd.
  destruct (submitted_row _ _ _ _ _ Hrow) as (u & url & -> & Ht & Hc & ->).
  subst fd. simpl. repeat split; eauto.
  destruct (Js.trim (Publish.description (Publish.formData st))); simpl;
    first [reflexivity | case_decide; done].
Qed.

Lemma inserted_row_sample :
  let st := Sample.publishState "  Button " " <button/>" None in
  let row := Publish.newRow Sample.alice (Publish.formData st) None in
  NewComponent.title row = "Button" /\ NewComponent.description row = None.
Proof.
  intros st row.
  assert (Hrow : ComponentsInsert row
                 ∈ requests (trace (Publish.handleSubmit Sample.healthy (Some Sample.alice)
                                      "0.42" st))).
  { vm_compute. apply list_elem_of_here. }
  destruct (inserted_row_well_formed _ _ _ _ _ Hrow) as (_ & [Ht _] & _ & Hd & _).
  split; [exact Ht|exact Hd].
Defined.

(** The last piece of a split has no separator in it, and the string
    is either that piece alone or ends with the separator followed by
    that piece. *)
Lemma split_last (sep : ascii) (s : string) :
  exists ext,
    Js.pop (Js.split sep s) = Some ext /\
    (forall a b, ext ≠ a ++ String sep b) /\
    ((Js.split sep s = [ext] /\ s = ext) \/
     (exists stem p q rest, s = stem ++ String sep ext /\ Js.split sep s = p :: q :: rest)).
Proof.
  unfold Js.pop. induction s as [|c s IH].
  - exists "". split; [reflexivity|]. split; [|left; done].
    intros [|x a] b; discriminate.
  - destruct IH as (ext & Hlast & Hfree & Hshape). simpl.
    destruct (Ascii.eqb c sep) eqn:Ec.
    + apply Ascii.eqb_eq in Ec as ->. exists ext.
      split; [|split; [exact Hfree|right]].
      * destruct (Js.split sep s) as [|p rest]; [discriminate Hlast|exact Hlast].
      * destruct Hshape as [[Hsplit ->]|(stem & p & q & rest & -> & Hsplit)];
          rewrite Hsplit.
        -- exists "", "", ext, []. done.
        -- exists (String sep stem), "", p, (q :: rest). done.
    + apply Ascii.eqb_neq in Ec.
      destruct Hshape as [[Hsplit ->]|(stem & p & q & rest & -> & Hsplit)];
        rewrite Hsplit in Hlast |- *.
      * exists (String c ext). split; [reflexivity|]. split; [|left; done].
        intros [|x a] b; simpl; intros [= Hx Hrest]; [congruence|].
        exact (Hfree _ _ Hrest).
      * exists ext. split; [exact Hlast|]. split; [exact Hfree|right].
        exists (String c stem), (String c p), q, rest. done.
Qed.

(** X25.  The storage path of a preview image is the folder previews,
    the number drawn, a dot and the extension of the file: the part of
    the file name after its last dot, or the whole name when it has no
    dot.  The extension is never missing. *)
Theorem preview_path_shape (random : string) (file : File.t) :
  exists ext,
    Publish.previewPath random file = "previews/" ++ random ++ "." ++ ext /\
    (forall a b, ext ≠ a ++ "." ++ b) /\
    (File.name file = ext \/ exists stem, File.name file = stem ++ "." ++ ext).
Proof.
  destruct (split_last "." (File.name file)) as (ext & Hpop & Hfree & Hshape).
  exists ext. unfold Publish.previewPath. rewrite Hpop. simpl.
  split; [reflexivity|]. split; [exact Hfree|].
  destruct Hshape as [[_ ->]|(stem & _ & _ & _ & -> & _)]; [left; reflexivity|].
  right. exists stem. reflexivity.
Qed.

(** X26.  A submission with valid fields and a selected image whose
    upload resolves without error sends the upload and then one
    insert, and the inserted row references the public URL of exactly
    the path that was uploaded. *)
Theorem upload_success_row (client : DataClient) (u : User.t) (random : string)
    (st : Publish.State) (file : File.t) (res : Response unit) :
  Publish.previewImage st = Some file ->
  Js.trim (Publish.title (Publish.formData st)) ≠ "" ->
  Js.trim (Publish.code (Publish.formData st)) ≠ "" ->
  let path := Publish.previewPath random file in
  storage_upload client "component-previews" path file = Resolved res ->
  error res = None ->
  requests (trace (Publish.handleSubmit client (Some u) random st)) =
    [StorageUpload "component-previews" path file;
     ComponentsInsert
       (Publish.newRow u (Publish.formData st)
          (Some (storage_public_url client "component-previews" path)))].
Proof.
  intros Himage Htitle Hcode path Hupload Herr. subst path.
  publish_step. simpl.
  rewrite (truthy_trim_filled _ Htitle), (truthy_trim_filled _ Hcode). simpl.
  rewrite Himage. simpl. rewrite Hupload. simpl.
  destruct res as [d e]. simpl in Herr. subst e. simpl.
  destruct (components_insert client _) as [[d' [e'|]]|?]; reflexivity.
Qed.

Lemma upload_success_sample :
  requests (trace (Publish.handleSubmit Sample.healthy (Some Sample.alice) "0.42"
                     (Sample.publishState "Button" "<button/>" (Some Sample.shot)))) =
    [StorageUpload "component-previews" "previews/0.42.png" Sample.shot;
     ComponentsInsert
       {| NewComponent.user_id := "alice"; NewComponent.title := "Button";
          NewComponent.description := None; NewComponent.code := "<button/>";
          NewComponent.tags := ["ui"];
          NewComponent.preview_image_url :=
            Some "https://cdn/component-previews/previews/0.42.png" |}].
Proof.
  apply (upload_success_row Sample.healthy Sample.alice "0.42"
           (Sample.publishState "Button" "<button/>" (Some Sample.shot))
           Sample.shot {| data := None; error := None |});
    first [reflexivity | discriminate].
Defined.

(** The six parts of X27 on a run that has been computed. *)
Ltac settled_submit :=
  let Himg := fresh "Himg" in
  let Hu := fresh "Hu" in
  let Hs := fresh "Hs" in
  let Ht := fresh "Ht" in
  let Hc := fresh "Hc" in
  split; [reflexivity|];
  split; [eexists; reflexivity|];
  split;
  [ first
      [ solve [exists [], []; repeat split; simpl; try lia;
               repeat constructor; eauto]
      | solve [eexists [_], []; repeat split; simpl; try lia;
               repeat constructor; eauto]
      | solve [eexists [], [_]; repeat split; simpl; try lia;
               repeat constructor; eauto]
      | solve [eexists [_], [_]; repeat split; simpl; try lia;
               repeat constructor; eauto] ]
  | split;
    [ intros Himg; first [discriminate Himg | repeat constructor; eauto]
    | split;
      [ intros Hu; first [discriminate Hu | split; reflexivity]
      | intros Hs Ht Hc;
        first [ reflexivity
              | exfalso; apply Ht; reflexivity
              | exfalso; apply Hc; reflexivity
              | destruct Hs; discriminate ] ] ] ].

(** X27.  A submission never throws and always suppresses the default
    submission of the form first.  It sends at most one upload and
    then at most one insert, no upload when no image is selected, and
    nothing at all when nobody is signed in.  Once the fields have
    passed validation the loading flag is cleared at the end, however
    the requests settle. *)
Theorem submit_settles (client : DataClient) (user : option User.t)
    (random : string) (st : Publish.State) :
  let r := Publish.handleSubmit client user random st in
  completion r = Normal tt /\
  (exists rest, trace r = EvPreventDefault :: rest) /\
  (exists uploads inserts : list Request,
     requests (trace r) = (uploads ++ inserts)%list /\
     (List.length uploads <= 1)%nat /\ (List.length inserts <= 1)%nat /\
     Forall (fun q => exists b p f, q = StorageUpload b p f) uploads /\
     Forall (fun q => exists row, q = ComponentsInsert row) inserts) /\
  (Publish.previewImage st = None ->
   Forall (fun q => exists row, q = ComponentsInsert row) (requests (trace r))) /\
  (user = None -> trace r = [EvPreventDefault] /\ state r = st) /\
  (is_Some user ->
   Js.trim (Publish.title (Publish.formData st)) ≠ "" ->
   Js.trim (Publish.code (Publish.formData st)) ≠ "" ->
   Publish.loading (state r) = false).
Proof.
  intros r. subst r. publish_step. simpl.
  destruct user as [u|]; simpl; [|settled_submit].
  destruct (Js.trim (Publish.title (Publish.formData st))) as [|a t]; simpl;
    [settled_submit|].
  destruct (Js.trim (Publish.code (Publish.formData st))) as [|b c]; simpl;
    [settled_submit|].
  destruct (Publish.previewImage st) as [file|]; simpl.
  - destruct (storage_upload client _ _ _) as [[d [e|]]|?]; simpl;
      try (destruct (components_insert client _) as [[d' [e'|]]|?]; simpl);
      settled_submit.
  - destruct (components_insert client _) as [[d' [e'|]]|?]; simpl; settled_submit.
Qed.

Lemma submit_settles_sample :
  let refused := Sample.client (Sample.ok None) Sample.saved_items Sample.feed
                   Sample.members (Sample.ok None) (Rejected "Failed to fetch") in
  Publish.loading
    (state (Publish.handleSubmit refused (Some Sample.alice) "0.42"
              (Sample.publishState "Button" "<button/>" None))) = false.
Proof.
  intros refused.
  apply (submit_settles refused (Some Sample.alice) "0.42"
           (Sample.publishState "Button" "<button/>" None));
    [eexists; reflexivity|discriminate|discriminate].
Defined.
